(** * ESPA product formatter: conversion to the old HDF layout and to GeoTIFF

    A shallow embedding of
    [src/raw_binary/format_conversion_libs/convert_hdf_to_old_hdf.c] and
    [src/raw_binary/format_conversion_libs/convert_espa_to_gtif.c], followed
    by the properties of the metadata transformation that the product
    specification states about them.

    Conventions of the embedding:
    - C [int]/[long] values are [Z]; C [float]/[double] values are binary64
      [float]s (the comparisons of the source are evaluated in [double]);
    - C strings are [string]s (without the character of code 0),
      [strcmp (a, b) == 0] is [String.eqb];
    - the band array [xml_metadata->band] is a list, [nbands] is its length
      and a read outside of it is undefined behaviour ([Undef]);
    - the HDF, ENVI and shell calls are events of a trace; an oracle
      [hdf_ok] says, from the trace so far, whether a call succeeds;
    - [error_handler] messages are events of the same trace, and a function
      that returns [ERROR] ends in [Error]; a message is the text that
      [sprintf] formats, the size of [errmsg] is not modelled, and neither
      is [MAX_TOTAL_BANDS], the size of the arrays of attribute values. *)

From Stdlib Require Import ZArith List String Ascii Bool Lia Floats.
From Stdlib Require Import DecimalString Permutation.
Import ListNotations.

Open Scope string_scope.
Open Scope Z_scope.
Open Scope list_scope.

Infix "^^" := String.append (at level 60, right associativity).

(** ** Values of the headers that are not part of the sources *)

(** [STR_SIZE], [MAX_ENVI_BANDS], the [ESPA_*_META_FILL] sentinels,
    [ESPA_EPSILON] and the two library version strings come from headers
    outside of the two translation units: they are parameters. *)
Class Espa_defines : Type := {
  STR_SIZE : Z;
  MAX_ENVI_BANDS : Z;
  ESPA_INT_META_FILL : Z;
  ESPA_FLOAT_META_FILL : float;
  ESPA_EPSILON : float;
  ESPA_STRING_META_FILL : string;
  H4_VERSION : string;
  PACKAGE_VERSION : string
}.

(** ** C library helpers *)

Definition strlen (s : string) : Z := Z.of_nat (String.length s).

(** [%d] of printf. *)
Definition fmt_d (z : Z) : string := NilZero.string_of_int (Z.to_int z).

(** Conversion of a C integer to [double] (exact below 2^53 in magnitude). *)
Definition float_of_Z (z : Z) : float :=
  if z <? 0 then PrimFloat.opp (PrimFloat.of_uint63 (Uint63.of_Z (- z)))
  else PrimFloat.of_uint63 (Uint63.of_Z z).

(** The cast [(float) x]: rounding of a binary64 value to binary32. *)
Definition round_float32 (x : float) : float :=
  match Prim2SF x with
  | S754_finite s m e =>
      SF2Prim (binary_normalize 24 128 (if s then Zneg m else Zpos m) e s)
  | _ => x
  end.

(** [snprintf (buf, size, ...)]: the text stored in [buf] (cut to [size - 1]
    characters) and the returned count (the length of the whole text). *)
Definition snprintf (size : Z) (text : string) : string * Z :=
  (String.substring 0 (Z.to_nat (size - 1)) text, strlen text).

(** The characters that the formats of the source write as escapes. *)
Definition TAB : string := String (ascii_of_nat 9) EmptyString.
Definition NL : string := String (ascii_of_nat 10) EmptyString.
Definition DQUOTE : string := String (ascii_of_nat 34) EmptyString.

(** [array[i]] for a C integer [i]. *)
Definition nth_Z {A : Type} (l : list A) (i : Z) : option A :=
  if i <? 0 then None else nth_error l (Z.to_nat i).

(** ** Metadata model *)

Inductive Espa_data_type : Type :=
| ESPA_INT8 | ESPA_UINT8 | ESPA_INT16 | ESPA_UINT16
| ESPA_INT32 | ESPA_UINT32 | ESPA_FLOAT32 | ESPA_FLOAT64
| ESPA_OTHER (code : Z).  (* any other value the enum field holds *)

Inductive hdf_type : Type :=
| DFNT_CHAR8 | DFNT_INT8 | DFNT_UINT8 | DFNT_INT16 | DFNT_UINT16
| DFNT_INT32 | DFNT_UINT32 | DFNT_FLOAT32 | DFNT_FLOAT64.

Record Espa_class_t : Type := {
  class : Z;
  description : string
}.

Record Espa_band_meta_t : Type := {
  name : string;
  data_type : Espa_data_type;
  nlines : Z;
  nsamps : Z;
  fill_value : Z;
  saturate_value : Z;
  scale_factor : float;
  add_offset : float;
  long_name : string;
  file_name : string;
  data_units : string;
  valid_range : Z * Z;
  toa_gain : float;
  toa_bias : float;
  nbits : Z;
  bitmap_description : list string;
  nclass : Z;
  class_values : list Espa_class_t;
  calibrated_nt : float;
  app_version : string;
  production_date : string
}.

Inductive Espa_bound : Type := ESPA_WEST | ESPA_EAST | ESPA_NORTH | ESPA_SOUTH.

Record Espa_global_meta_t : Type := {
  data_provider : string;
  satellite : string;
  instrument : string;
  acquisition_date : string;
  level1_production_date : string;
  lpgs_metadata_file : string;
  solar_zenith : float;
  solar_azimuth : float;
  wrs_system : Z;
  wrs_path : Z;
  wrs_row : Z;
  ul_corner : float * float;
  lr_corner : float * float;
  bounding_coords : Espa_bound -> float
}.

Record Espa_internal_meta_t : Type := {
  global : Espa_global_meta_t;
  band : list Espa_band_meta_t
}.

Definition nbands (xml_metadata : Espa_internal_meta_t) : Z :=
  Z.of_nat (List.length (band xml_metadata)).

(** ** Events and the monad of the conversion functions *)

Inductive event : Type :=
| SDstart (hdf_file : string)
| SDcreate (sds_name : string) (data_type : hdf_type) (rank : Z) (dims : list Z)
| SDgetdimid (dim : Z)
| SDsetdimname (dim : Z) (dim_name : string)
| SDsetexternalfile (file_name : string) (offset : Z)
| SDendaccess
| SDend
| put_attr_string (attr_name : string) (nval : Z) (value : string)
| put_attr_double (attr_name : string) (type : hdf_type) (nval : Z)
    (dval : list float)
| write_hdf_eos_attr_old (hdf_file : string)
    (xml_metadata : Espa_internal_meta_t)
| create_envi_struct (bmeta : Espa_band_meta_t) (gmeta : Espa_global_meta_t)
| write_envi_hdr (hdr_file : string)
| system (cmd : string)
| printf (text : string)
| error_handler (func : string) (errmsg : string).

Definition trace : Type := list event.

Inductive outcome (A : Type) : Type :=
| Ok (a : A) (tr : trace)     (* ran to the end of the block *)
| Error (tr : trace)          (* return (ERROR) *)
| Undef.                      (* read outside of an array *)

Arguments Ok {A} a tr.
Arguments Error {A} tr.
Arguments Undef {A}.

Definition M (A : Type) : Type := trace -> outcome A.

Definition ret {A : Type} (a : A) : M A := fun tr => Ok a tr.

Definition bind {A B : Type} (m : M A) (k : A -> M B) : M B :=
  fun tr =>
    match m tr with
    | Ok a tr' => k a tr'
    | Error tr' => Error tr'
    | Undef => Undef
    end.

Notation "x <- m ;; k" := (bind m (fun x => k))
  (at level 61, m at next level, right associativity).
Notation "m ;;; k" := (bind m (fun _ => k))
  (at level 61, right associativity).

(** [error_handler (true, func, msg); return (ERROR);] *)
Definition fail_with {A : Type} (func msg : string) : M A :=
  fun tr => Error (tr ++ [error_handler func msg]).

(** A read of an array element, or of a field of it. *)
Definition read {A : Type} (o : option A) : M A :=
  fun tr => match o with Some a => Ok a tr | None => Undef end.

(** A call whose result the source does not look at. *)
Definition emit (c : event) : M unit := fun tr => Ok tt (tr ++ [c]).

(** When a callee returned [ERROR], report [msg] and return [ERROR] too. *)
Definition on_error {A : Type} (m : M A) (func msg : string) : M A :=
  fun tr =>
    match m tr with
    | Error tr' => Error (tr' ++ [error_handler func msg])
    | r => r
    end.

(** [for (i = lo; i < lo + n; i++) body], threading the locals [s]. *)
Fixpoint for_loop {St : Type} (n : nat) (i : Z) (body : Z -> St -> M St)
  (s : St) : M St :=
  match n with
  | O => ret s
  | S n' => s' <- body i s ;; for_loop n' (i + 1) body s'
  end.

(** ** convert_hdf_to_old_hdf.c *)

(** The SDS names of the new HDF file and of the old one, in the order in
    which the SDSs are written to the old HDF file. *)
Definition NOLD_SR : Z := 17.

Definition hdfname_mapping : list (string * string) :=
  [ ("sr_band1", "band1");
    ("sr_band2", "band2");
    ("sr_band3", "band3");
    ("sr_band4", "band4");
    ("sr_band5", "band5");
    ("sr_band7", "band7");
    ("sr_atmos_opacity", "atmos_opacity");
    ("sr_fill_qa", "fill_QA");
    ("sr_ddv_qa", "DDV_QA");
    ("sr_cloud_qa", "cloud_QA");
    ("sr_cloud_shadow_qa", "cloud_shadow_QA");
    ("sr_snow_qa", "snow_QA");
    ("sr_land_water_qa", "land_water_QA");
    ("sr_adjacent_cloud_qa", "adjacent_cloud_QA");
    ("toa_band6", "band6");
    ("toa_band6_qa", "band6_fill_QA");
    ("fmask", "fmask_band") ].

(** The locals [gain], [bias], [gain_thm], [bias_thm] of
    [write_global_attributes] with the counts [ngain_bias] and
    [ngain_bias_thm]; the arrays hold the entries written so far, so that
    [refl_count] and [thm_count] are their lengths. *)
Record gain_bias_t : Type := {
  ngain_bias : Z;
  ngain_bias_thm : Z;
  gain : list float;
  bias : list float;
  gain_thm : list float;
  bias_thm : list float
}.

(** The state before the instrument is looked at:
    [ngain_bias = 0], [ngain_bias_thm = 0]. *)
Definition no_gain_bias : gain_bias_t :=
  {| ngain_bias := 0; ngain_bias_thm := 0;
     gain := []; bias := []; gain_thm := []; bias_thm := [] |}.

(** [gain[refl_count] = band[i].toa_gain; bias[refl_count] = ...;
    refl_count++] *)
Definition store_refl (b : Espa_band_meta_t) (st : gain_bias_t) : gain_bias_t :=
  {| ngain_bias := ngain_bias st; ngain_bias_thm := ngain_bias_thm st;
     gain := gain st ++ [toa_gain b]; bias := bias st ++ [toa_bias b];
     gain_thm := gain_thm st; bias_thm := bias_thm st |}.

(** [gain_thm[thm_count] = band[i].toa_gain; bias_thm[thm_count] = ...;
    thm_count++] *)
Definition store_thm (b : Espa_band_meta_t) (st : gain_bias_t) : gain_bias_t :=
  {| ngain_bias := ngain_bias st; ngain_bias_thm := ngain_bias_thm st;
     gain := gain st; bias := bias st;
     gain_thm := gain_thm st ++ [toa_gain b];
     bias_thm := bias_thm st ++ [toa_bias b] |}.

(** [gain_thm[0] = band[i].toa_gain; bias_thm[0] = band[i].toa_bias] *)
Definition store_thm0 (b : Espa_band_meta_t) (st : gain_bias_t) : gain_bias_t :=
  {| ngain_bias := ngain_bias st; ngain_bias_thm := ngain_bias_thm st;
     gain := gain st; bias := bias st;
     gain_thm := [toa_gain b]; bias_thm := [toa_bias b] |}.

(** [ngain_bias = refl_count; ngain_bias_thm = n] *)
Definition set_counts (n_thm : Z) (st : gain_bias_t) : gain_bias_t :=
  {| ngain_bias := Z.of_nat (List.length (gain st)); ngain_bias_thm := n_thm;
     gain := gain st; bias := bias st;
     gain_thm := gain_thm st; bias_thm := bias_thm st |}.

(** [for (i = 0; i < n; i++)] over the band array: [body i band[i]]. *)
Fixpoint band_loop (idx : list nat) (body : nat -> Espa_band_meta_t ->
  gain_bias_t -> gain_bias_t) (bands : list Espa_band_meta_t) (st : gain_bias_t)
  : option gain_bias_t :=
  match idx with
  | [] => Some st
  | i :: rest =>
      match nth_error bands i with
      | Some b => band_loop rest body bands (body i b st)
      | None => None
      end
  end.

Definition TM_body (i : nat) (b : Espa_band_meta_t) (st : gain_bias_t)
  : gain_bias_t :=
  if negb (Nat.eqb i 5) then store_refl b st else store_thm0 b st.

Definition ETM_body (i : nat) (b : Espa_band_meta_t) (st : gain_bias_t)
  : gain_bias_t :=
  if negb (Nat.eqb i 5) && negb (Nat.eqb i 6) then store_refl b st
  else store_thm b st.

Definition OLI_TIRS_body (i : nat) (b : Espa_band_meta_t) (st : gain_bias_t)
  : gain_bias_t :=
  if Nat.eqb i 9 || Nat.eqb i 10 then store_thm b st
  else if negb (Nat.eqb i 7) then store_refl b st
  else st.

(** [!strcmp (instrument, "TM")], [!strncmp (instrument, "ETM", 3)] and
    [!strcmp (instrument, "OLI_TIRS")]. *)
Definition is_TM (inst : string) : bool := String.eqb inst "TM".
Definition is_ETM (inst : string) : bool := String.prefix "ETM" inst.
Definition is_OLI_TIRS (inst : string) : bool := String.eqb inst "OLI_TIRS".

Definition OUTPUT_REFL_GAINS : string := "ReflGains".
Definition OUTPUT_REFL_BIAS : string := "ReflBias".
Definition OUTPUT_THM_GAINS : string := "ThermalGains".
Definition OUTPUT_THM_BIAS : string := "ThermalBias".
Definition OUTPUT_PAN_GAIN : string := "PanGain".
Definition OUTPUT_PAN_BIAS : string := "PanBias".

(** The events that write one of the six gain/bias attributes. *)
Definition is_gain_bias_attr (e : event) : bool :=
  match e with
  | put_attr_double n _ _ _ =>
      existsb (String.eqb n)
        [OUTPUT_REFL_GAINS; OUTPUT_REFL_BIAS; OUTPUT_THM_GAINS;
         OUTPUT_THM_BIAS; OUTPUT_PAN_GAIN; OUTPUT_PAN_BIAS]
  | _ => false
  end.

Section Conversion.

Context {defs : Espa_defines}.

(** Does the external call [c] succeed after the calls of [tr]? *)
Variable hdf_ok : trace -> event -> bool.

(** [if (call != SUCCESS) { error_handler (true, func, msg);
    return (ERROR); }] *)
Definition attempt (c : event) (func msg : string) : M unit :=
  fun tr =>
    if hdf_ok tr c then Ok tt (tr ++ [c])
    else Error (tr ++ [error_handler func msg]).

(** [fabs (x - ESPA_FLOAT_META_FILL) > ESPA_EPSILON] *)
Definition float_not_fill (x : float) : bool :=
  PrimFloat.ltb ESPA_EPSILON
    (PrimFloat.abs (PrimFloat.sub x ESPA_FLOAT_META_FILL)).

(** The test on band 1 ([band[0]]) that the gain and bias values exist. *)
Definition gain_bias_exist (b : Espa_band_meta_t) : bool :=
  float_not_fill (toa_gain b) && float_not_fill (toa_bias b).

(** Lines 261-375 of [write_global_attributes]: the reflectance and thermal
    gains and biases by instrument. [None] is a read outside of the band
    array. *)
Definition gains_and_biases (xml_metadata : Espa_internal_meta_t)
  : option gain_bias_t :=
  let inst := instrument (global xml_metadata) in
  let bands := band xml_metadata in
  if is_TM inst then
    match nth_error bands 0 with
    | None => None
    | Some b0 =>
        if gain_bias_exist b0 then
          option_map (set_counts 1)
            (band_loop (seq 0 7) TM_body bands no_gain_bias)
        else Some no_gain_bias
    end
  else if is_ETM inst then
    match nth_error bands 0 with
    | None => None
    | Some b0 =>
        if gain_bias_exist b0 then
          option_map
            (fun st => set_counts (Z.of_nat (List.length (gain_thm st))) st)
            (band_loop (seq 0 8) ETM_body bands no_gain_bias)
        else Some no_gain_bias
    end
  else if is_OLI_TIRS inst then
    match nth_error bands 0 with
    | None => None
    | Some b0 =>
        if gain_bias_exist b0 then
          option_map
            (fun st => set_counts (Z.of_nat (List.length (gain_thm st))) st)
            (band_loop (seq 0 11) OLI_TIRS_body bands no_gain_bias)
        else Some no_gain_bias
    end
  else Some no_gain_bias.

(** The band whose gain and bias are the pan values: [band[8]] for ETM+,
    [band[7]] for OLI_TIRS (the caller has tested that the instrument is
    one of the two). *)
Definition pan_band (xml_metadata : Espa_internal_meta_t)
  : option Espa_band_meta_t :=
  if is_ETM (instrument (global xml_metadata))
  then nth_error (band xml_metadata) 8
  else nth_error (band xml_metadata) 7.

Definition write_global_attributes (xml_metadata : Espa_internal_meta_t)
  : M unit :=
  let FUNC_NAME := "write_global_attributes" in
  let gmeta := global xml_metadata in
  attempt (put_attr_string "DataProvider" (strlen (data_provider gmeta))
             (data_provider gmeta))
    FUNC_NAME "Writing global attribute (data provider)" ;;;
  attempt (put_attr_string "Satellite" (strlen (satellite gmeta))
             (satellite gmeta))
    FUNC_NAME "Writing global attribute (satellite)" ;;;
  attempt (put_attr_string "Instrument" (strlen (instrument gmeta))
             (instrument gmeta))
    FUNC_NAME "Writing global attribute (instrument)" ;;;
  attempt (put_attr_string "AcquisitionDate" (strlen (acquisition_date gmeta))
             (acquisition_date gmeta))
    FUNC_NAME "Writing global attribute (acquisition date)" ;;;
  attempt (put_attr_string "Level1ProductionDate"
             (strlen (level1_production_date gmeta))
             (level1_production_date gmeta))
    FUNC_NAME "Writing global attribute (production date)" ;;;
  attempt (put_attr_string "LPGSMetadataFile"
             (strlen (lpgs_metadata_file gmeta)) (lpgs_metadata_file gmeta))
    FUNC_NAME "Writing global attribute (LPGS metadata file)" ;;;
  attempt (put_attr_double "SolarZenith" DFNT_FLOAT32 1 [solar_zenith gmeta])
    FUNC_NAME "Writing global attribute (solar zenith)" ;;;
  attempt (put_attr_double "SolarAzimuth" DFNT_FLOAT32 1 [solar_azimuth gmeta])
    FUNC_NAME "Writing global attribute (solar azimuth)" ;;;
  attempt (put_attr_double "WRS_System" DFNT_INT16 1
             [float_of_Z (wrs_system gmeta)])
    FUNC_NAME "Writing global attribute (WRS system)" ;;;
  attempt (put_attr_double "WRS_Path" DFNT_INT16 1
             [float_of_Z (wrs_path gmeta)])
    FUNC_NAME "Writing global attribute (WRS path)" ;;;
  attempt (put_attr_double "WRS_Row" DFNT_INT16 1 [float_of_Z (wrs_row gmeta)])
    FUNC_NAME "Writing global attribute (WRS row)" ;;;
  (* the gains and biases, if they are available *)
  gb <- read (gains_and_biases xml_metadata) ;;
  (if 0 <? ngain_bias gb then
     attempt (put_attr_double OUTPUT_REFL_GAINS DFNT_FLOAT64 (ngain_bias gb)
                (gain gb))
       FUNC_NAME "Writing global attribute (reflectance gains)" ;;;
     attempt (put_attr_double OUTPUT_REFL_BIAS DFNT_FLOAT64 (ngain_bias gb)
                (bias gb))
       FUNC_NAME "Writing global attribute (reflectance biases)"
   else ret tt) ;;;
  (if 0 <? ngain_bias_thm gb then
     attempt (put_attr_double OUTPUT_THM_GAINS DFNT_FLOAT64 (ngain_bias_thm gb)
                (gain_thm gb))
       FUNC_NAME "Writing global attribute (thermal gains)" ;;;
     attempt (put_attr_double OUTPUT_THM_BIAS DFNT_FLOAT64 (ngain_bias_thm gb)
                (bias_thm gb))
       FUNC_NAME "Writing global attribute (thermal biases)"
   else ret tt) ;;;
  (if (is_ETM (instrument gmeta) || is_OLI_TIRS (instrument gmeta))
      && (0 <? ngain_bias gb) then
     pan <- read (pan_band xml_metadata) ;;
     attempt (put_attr_double OUTPUT_PAN_GAIN DFNT_FLOAT64 1 [toa_gain pan])
       FUNC_NAME "Writing global attribute (pan gains)" ;;;
     attempt (put_attr_double OUTPUT_PAN_BIAS DFNT_FLOAT64 1 [toa_bias pan])
       FUNC_NAME "Writing global attribute (pan biases)"
   else ret tt) ;;;
  attempt (put_attr_double "UpperLeftCornerLatLong" DFNT_FLOAT64 2
             [fst (ul_corner gmeta); snd (ul_corner gmeta)])
    FUNC_NAME "Writing global attribute (UL corner)" ;;;
  attempt (put_attr_double "LowerRightCornerLatLong" DFNT_FLOAT64 2
             [fst (lr_corner gmeta); snd (lr_corner gmeta)])
    FUNC_NAME "Writing global attribute (LR corner)" ;;;
  attempt (put_attr_double "WestBoundingCoordinate" DFNT_FLOAT64 1
             [bounding_coords gmeta ESPA_WEST])
    FUNC_NAME "Writing global attribute (west bounding coord)" ;;;
  attempt (put_attr_double "EastBoundingCoordinate" DFNT_FLOAT64 1
             [bounding_coords gmeta ESPA_EAST])
    FUNC_NAME "Writing global attribute (east bounding coord)" ;;;
  attempt (put_attr_double "NorthBoundingCoordinate" DFNT_FLOAT64 1
             [bounding_coords gmeta ESPA_NORTH])
    FUNC_NAME "Writing global attribute (north bounding coord)" ;;;
  attempt (put_attr_double "SouthBoundingCoordinate" DFNT_FLOAT64 1
             [bounding_coords gmeta ESPA_SOUTH])
    FUNC_NAME "Writing global attribute (south bounding coord)" ;;;
  attempt (put_attr_string "HDFVersion" (strlen H4_VERSION) H4_VERSION)
    FUNC_NAME "Writing global attribute (HDF Version)" ;;;
  attempt (put_attr_string "HDFEOSVersion" (strlen PACKAGE_VERSION)
             PACKAGE_VERSION)
    FUNC_NAME "Writing global attribute (HDFEOS Version)" ;;;
  (* the production date of the first band *)
  b0 <- read (nth_error (band xml_metadata) 0) ;;
  attempt (put_attr_string "ProductionDate" (strlen (production_date b0))
             (production_date b0))
    FUNC_NAME "Writing global attribute (production date)".

(** The locals [message] and [tmp_msg] of [write_sds_attributes]:
    [message] is [char[5000]], [tmp_msg] is [char[STR_SIZE]]. *)
Definition sizeof_message : Z := 5000.

(** The text of the format [\t%d      %s\n]. *)
Definition description_line (num : Z) (text : string) : string :=
  TAB ^^ fmt_d num ^^ "      " ^^ text ^^ NL.

(** One turn of the loops over the bits and over the classes: the line
    is printed to [tmp_msg] and appended to [message]. *)
Definition append_line (num : Z) (text : string) (message : string)
  : M string :=
  let FUNC_NAME := "write_sds_attributes" in
  let (tmp_msg, count) := snprintf STR_SIZE (description_line num text) in
  if (count <? 0) || (STR_SIZE <=? count) then
    fail_with FUNC_NAME "Overflow of tmp_msg string"
  else if sizeof_message <=? strlen message + strlen tmp_msg then
    fail_with FUNC_NAME "Overflow of message string"
  else ret (message ^^ tmp_msg).

(** [snprintf (message, sizeof (message), header)] with its test. *)
Definition start_message (header : string) : M string :=
  let (message, count) := snprintf sizeof_message header in
  if (count <? 0) || (sizeof_message <=? count) then
    fail_with "write_sds_attributes" "Overflow of message string"
  else ret message.

Definition bitmap_header : string :=
  NL ^^ TAB ^^ "Bits are numbered from right to left "
    ^^ "(bit 0 = LSB, bit N = MSB):" ^^ NL
    ^^ TAB ^^ "Bit    Description" ^^ NL.

Definition class_header : string :=
  NL ^^ TAB ^^ "Class  Description" ^^ NL.

(** The description of the QA bits. *)
Definition bitmap_message (bmeta : Espa_band_meta_t) : M string :=
  message <- start_message bitmap_header ;;
  for_loop (Z.to_nat (nbits bmeta)) 0
    (fun i message =>
       text <- read (nth_Z (bitmap_description bmeta) i) ;;
       append_line i text message)
    message.

(** The description of the classes. *)
Definition class_message (bmeta : Espa_band_meta_t) : M string :=
  message <- start_message class_header ;;
  for_loop (Z.to_nat (nclass bmeta)) 0
    (fun i message =>
       c <- read (nth_Z (class_values bmeta) i) ;;
       append_line (class c) (description c) message)
    message.

Definition write_sds_attributes (bmeta : Espa_band_meta_t) : M unit :=
  let FUNC_NAME := "write_sds_attributes" in
  attempt (put_attr_string "long_name" (strlen (long_name bmeta))
             (long_name bmeta))
    FUNC_NAME ("Writing attribute (long name) to SDS: " ^^ name bmeta) ;;;
  attempt (put_attr_string "units" (strlen (data_units bmeta))
             (data_units bmeta))
    FUNC_NAME ("Writing attribute (units ref) to SDS: " ^^ name bmeta) ;;;
  (if negb (fst (valid_range bmeta) =? ESPA_INT_META_FILL)
      && negb (snd (valid_range bmeta) =? ESPA_INT_META_FILL) then
     attempt (put_attr_double "valid_range" DFNT_INT32 2
                [float_of_Z (fst (valid_range bmeta));
                 float_of_Z (snd (valid_range bmeta))])
       FUNC_NAME ("Writing attribute (valid range) to SDS: " ^^ name bmeta)
   else ret tt) ;;;
  attempt (put_attr_double "_FillValue" DFNT_INT32 1
             [float_of_Z (fill_value bmeta)])
    FUNC_NAME ("Writing attribute (fill value) to SDS: " ^^ name bmeta) ;;;
  (if negb (saturate_value bmeta =? ESPA_INT_META_FILL) then
     attempt (put_attr_double "_SaturateValue" DFNT_INT32 1
                [float_of_Z (saturate_value bmeta)])
       FUNC_NAME ("Writing attribute (saturate value) to SDS: " ^^ name bmeta)
   else ret tt) ;;;
  (if negb (PrimFloat.eqb (scale_factor bmeta) (float_of_Z ESPA_INT_META_FILL))
   then
     attempt (put_attr_double "scale_factor" DFNT_FLOAT32 1
                [round_float32 (scale_factor bmeta)])
       FUNC_NAME ("Writing attribute (scale factor) to SDS: " ^^ name bmeta)
   else ret tt) ;;;
  (if negb (PrimFloat.eqb (add_offset bmeta) (float_of_Z ESPA_INT_META_FILL))
   then
     attempt (put_attr_double "add_offset" DFNT_FLOAT64 1 [add_offset bmeta])
       FUNC_NAME ("Writing attribute (add offset) to SDS: " ^^ name bmeta)
   else ret tt) ;;;
  (if float_not_fill (calibrated_nt bmeta) then
     attempt (put_attr_double "calibrated_nt" DFNT_FLOAT32 1
                [calibrated_nt bmeta])
       FUNC_NAME ("Writing attribute (calibrated nt) to SDS: " ^^ name bmeta)
   else ret tt) ;;;
  (if negb (nbits bmeta =? ESPA_INT_META_FILL) && (0 <? nbits bmeta) then
     message <- bitmap_message bmeta ;;
     attempt (put_attr_string "Bitmap description" (strlen message) message)
       FUNC_NAME
       ("Writing attribute (Bitmap description) to SDS: " ^^ name bmeta)
   else ret tt) ;;;
  (if negb (nclass bmeta =? ESPA_INT_META_FILL) && (0 <? nclass bmeta) then
     message <- class_message bmeta ;;
     attempt (put_attr_string "Class description" (strlen message) message)
       FUNC_NAME
       ("Writing attribute (Class description) to SDS: " ^^ name bmeta)
   else ret tt) ;;;
  (if negb (String.eqb (app_version bmeta) ESPA_STRING_META_FILL) then
     attempt (put_attr_string "app_version" (strlen (app_version bmeta))
                (app_version bmeta))
       FUNC_NAME ("Writing attribute (app version) to SDS: " ^^ name bmeta)
   else ret tt).

(** The [switch] on the ESPA data type of a band. *)
Definition hdf_data_type (t : Espa_data_type) : M hdf_type :=
  match t with
  | ESPA_INT8 => ret DFNT_INT8
  | ESPA_UINT8 => ret DFNT_UINT8
  | ESPA_INT16 => ret DFNT_INT16
  | ESPA_UINT16 => ret DFNT_UINT16
  | ESPA_INT32 => ret DFNT_INT32
  | ESPA_UINT32 => ret DFNT_UINT32
  | ESPA_FLOAT32 => ret DFNT_FLOAT32
  | ESPA_FLOAT64 => ret DFNT_FLOAT64
  | ESPA_OTHER _ =>
      fail_with "create_hdf_metadata" "Unsupported ESPA data type."
  end.

Definition dim_name (dim : Z) : string := if dim =? 0 then "YDim" else "XDim".

(** The body of the inner loop of [create_hdf_metadata] for a band whose
    name is the one looked for: the band becomes the external SDS
    [old_name], the SDS of index [bnd]. *)
Definition write_sds (bnd : Z) (old_name : string) (b : Espa_band_meta_t)
  : M unit :=
  let FUNC_NAME := "create_hdf_metadata" in
  emit (printf ("Processing SDS: " ^^ name b ^^ " --> " ^^ old_name ^^ NL)) ;;;
  data_type <- hdf_data_type (data_type b) ;;
  attempt (SDcreate old_name data_type 2 [nlines b; nsamps b])
    FUNC_NAME ("Creating SDS in the HDF file: " ^^ fmt_d bnd ^^ ".") ;;;
  for_loop 2 0
    (fun dim _ =>
       attempt (SDgetdimid dim)
         FUNC_NAME ("Getting dimension id for dimension " ^^ fmt_d dim
                    ^^ " and SDS " ^^ fmt_d bnd ^^ ".") ;;;
       attempt (SDsetdimname dim (dim_name dim))
         FUNC_NAME ("Setting dimension name (" ^^ dim_name dim
                    ^^ ") for dimension " ^^ fmt_d dim ^^ " and SDS "
                    ^^ fmt_d bnd ^^ "."))
    tt ;;;
  attempt (SDsetexternalfile (file_name b) 0)
    FUNC_NAME ("Setting the external dataset for this SDS (" ^^ fmt_d bnd
               ^^ "): " ^^ file_name b ^^ ".") ;;;
  on_error (write_sds_attributes b)
    FUNC_NAME
    ("Writing band attributes for this SDS (" ^^ fmt_d bnd ^^ ").") ;;;
  emit SDendaccess.

(** [for (i = 0; i < nbands; i++)]: every band named [new_name] is
    written; the result is [bnd_found]. *)
Fixpoint scan_bands (bnd : Z) (new_name old_name : string)
  (bands : list Espa_band_meta_t) (bnd_found : bool) : M bool :=
  match bands with
  | [] => ret bnd_found
  | b :: rest =>
      if negb (String.eqb (name b) new_name) then
        scan_bands bnd new_name old_name rest bnd_found
      else
        write_sds bnd old_name b ;;;
        scan_bands bnd new_name old_name rest true
  end.

(** The message for a band of the table that the XML file does not have. *)
Definition band_not_found (new_name : string) : string :=
  "Band " ^^ new_name ^^ " was not found in the XML file, but it "
  ^^ "is expected to be available for output.".

(** [for (bnd = ...; bnd < NOLD_SR; bnd++)] over the rows
    [hdfname_mapping[bnd]] that are left. *)
Fixpoint sds_loop (bnd : Z) (mapping : list (string * string))
  (bands : list Espa_band_meta_t) : M unit :=
  match mapping with
  | [] => ret tt
  | (new_name, old_name) :: rest =>
      bnd_found <- scan_bands bnd new_name old_name bands false ;;
      if negb bnd_found && negb (bnd =? NOLD_SR - 1) then
        fail_with "create_hdf_metadata" (band_not_found new_name)
      else sds_loop (bnd + 1) rest bands
  end.

Definition create_hdf_metadata (hdf_file : string)
  (xml_metadata : Espa_internal_meta_t) : M unit :=
  let FUNC_NAME := "create_hdf_metadata" in
  attempt (SDstart hdf_file)
    FUNC_NAME ("Creating the HDF file: " ^^ hdf_file) ;;;
  sds_loop 0 hdfname_mapping (band xml_metadata) ;;;
  on_error (write_global_attributes xml_metadata)
    FUNC_NAME "Writing global attributes for this HDF file." ;;;
  emit SDend ;;;
  attempt (write_hdf_eos_attr_old hdf_file xml_metadata)
    FUNC_NAME
    "Writing HDF-EOS attributes for this old-style HDF file.".

(** [indx = -99; for (i = 0; i < nbands; i++)
    if (!strcmp (band[i].name, hdfname_mapping[0][0])) indx = i;] from the
    band [i] on. *)
Fixpoint sr_band1_index (bands : list Espa_band_meta_t) (i indx : Z) : Z :=
  match bands with
  | [] => indx
  | b :: rest =>
      sr_band1_index rest (i + 1)
        (if String.eqb (name b) (fst (hd ("", "") hdfname_mapping)) then i
         else indx)
  end.

(** [validate_xml_file] and [parse_metadata] together: the metadata of the
    XML file, unless one of the two fails. *)
Variable parse_metadata : string -> option Espa_internal_meta_t.

Definition convert_hdf_to_old_hdf (espa_xml_file hdf_file : string) : M unit :=
  let FUNC_NAME := "convert_hdf_to_old_hdf" in
  match parse_metadata espa_xml_file with
  | None => fun tr => Error tr
  | Some xml_metadata =>
      on_error (create_hdf_metadata hdf_file xml_metadata)
        FUNC_NAME
        ("Creating the HDF metadata file (" ^^ hdf_file
         ^^ ") which links to the raw binary bands as external SDSs.") ;;;
      let indx := sr_band1_index (band xml_metadata) 0 (-99) in
      bmeta <- read (nth_Z (band xml_metadata) indx) ;;
      attempt (create_envi_struct bmeta (global xml_metadata))
        FUNC_NAME ("Creating the ENVI header for " ^^ hdf_file) ;;;
      if MAX_ENVI_BANDS <? nbands xml_metadata then
        fail_with FUNC_NAME
          ("Number of bands being written exceeds the "
           ^^ "predefined maximum of bands in envi_header.h: "
           ^^ fmt_d MAX_ENVI_BANDS)
      else
        (* envi_hdr.file_type is taken to be a char[STR_SIZE] *)
        let (_, count) := snprintf STR_SIZE "HDF scientific data" in
        if (count <? 0) || (STR_SIZE <=? count) then
          fail_with FUNC_NAME "Overflow of envi_hdr.file_type string"
        else
          let (hdr_file, count) := snprintf STR_SIZE (hdf_file ^^ ".hdr") in
          if (count <? 0) || (STR_SIZE <=? count) then
            fail_with FUNC_NAME "Overflow of hdr_file string"
          else
            attempt (write_envi_hdr hdr_file)
              FUNC_NAME ("Writing the ENVI header: " ^^ hdr_file)
  end.

(** ** convert_espa_to_gtif.c *)

(** [cptr = strchr (s, ' ')] followed by [*cptr = '_']: [None] when
    [strchr] returns [NULL]. *)
Fixpoint replace_first_blank (s : string) : option string :=
  match s with
  | EmptyString => None
  | String c rest =>
      if Ascii.eqb c " " then Some (String "_" rest)
      else option_map (String c) (replace_first_blank rest)
  end.

(** [while ((cptr = strchr (gtif_band, ' ')) != NULL) *cptr = '_';] run
    for at most [fuel] stores; [None] when the loop needs more. *)
Fixpoint blank_loop (fuel : nat) (s : string) : option string :=
  match replace_first_blank s with
  | None => Some s
  | Some s' =>
      match fuel with
      | O => None
      | S fuel' => blank_loop fuel' s'
      end
  end.

(** Lines 89-101 of [convert_espa_to_gtif]: the name of the GeoTIFF file of
    a band. As many stores as the name has characters are enough for the
    loop. *)
Definition gtif_band_name (gtif_file band_name : string) : M string :=
  let (gtif_band, count) :=
    snprintf STR_SIZE (gtif_file ^^ "_" ^^ band_name ^^ ".tif") in
  if (count <? 0) || (STR_SIZE <=? count) then
    fail_with "convert_espa_to_gtif" "Overflow of gtif_file string"
  else read (blank_loop (String.length gtif_band) gtif_band).

Fixpoint gtif_loop (gtif_file : string) (bands : list Espa_band_meta_t)
  : M unit :=
  let FUNC_NAME := "convert_espa_to_gtif" in
  match bands with
  | [] => ret tt
  | b :: rest =>
      gtif_band <- gtif_band_name gtif_file (name b) ;;
      emit (printf ("Converting " ^^ file_name b ^^ " to " ^^ gtif_band
                    ^^ NL)) ;;;
      let (gdal_cmd, count) :=
        snprintf STR_SIZE
          ("gdal_translate -of Gtiff -a_nodata " ^^ fmt_d (fill_value b)
           ^^ " -co " ^^ DQUOTE ^^ "TFW=YES" ^^ DQUOTE ^^ " -q "
           ^^ file_name b ^^ " " ^^ gtif_band) in
      if (count <? 0) || (STR_SIZE <=? count) then
        fail_with FUNC_NAME "Overflow of gdal_cmd string"
      else
        attempt (system gdal_cmd)
          FUNC_NAME ("Running gdal_translate: " ^^ gdal_cmd) ;;;
        gtif_loop gtif_file rest
  end.

Definition convert_espa_to_gtif (espa_xml_file gtif_file : string) : M unit :=
  match parse_metadata espa_xml_file with
  | None => fun tr => Error tr
  | Some xml_metadata => gtif_loop gtif_file (band xml_metadata)
  end.

End Conversion.

(** ** Example data *)

(** A setting of the header values for the examples: buffers of 1024
    characters, the fill values -3333 and "undefined", the tolerance
    0.00001 (its nearest binary64 value). *)
Definition sample_defines : Espa_defines :=
  {| STR_SIZE := 1024;
     MAX_ENVI_BANDS := 50;
     ESPA_INT_META_FILL := -3333;
     ESPA_FLOAT_META_FILL := (-3333)%float;
     ESPA_EPSILON := 0x1.4f8b588e368f1p-17%float;
     ESPA_STRING_META_FILL := "undefined";
     H4_VERSION := "4.2.10";
     PACKAGE_VERSION := "2.19" |}.

(** Every external call succeeds. *)
Definition all_ok : trace -> event -> bool := fun _ _ => true.

(** A band of 7001 lines of 8001 samples with the given name, data type,
    gain, bias, scale factor, offset, calibrated value, descriptions of bits
    and of classes (the counts are the fill value when there are none) and
    production date; the other optional fields are fill values. *)
Definition make_band (band_name : string) (t : Espa_data_type)
  (g b scale offset nt : float) (bits : list string)
  (classes : list Espa_class_t) (date : string) : Espa_band_meta_t :=
  {| name := band_name;
     data_type := t;
     nlines := 7001;
     nsamps := 8001;
     fill_value := -9999;
     saturate_value := -3333;
     scale_factor := scale;
     add_offset := offset;
     long_name := band_name;
     file_name := band_name ^^ ".img";
     data_units := "reflectance";
     valid_range := (-3333, -3333);
     toa_gain := g;
     toa_bias := b;
     nbits :=
       match bits with
       | [] => -3333
       | _ => Z.of_nat (List.length bits)
       end;
     bitmap_description := bits;
     nclass :=
       match classes with
       | [] => -3333
       | _ => Z.of_nat (List.length classes)
       end;
     class_values := classes;
     calibrated_nt := nt;
     app_version := "undefined";
     production_date := date |}.

(** A 16-bit band without optional attributes and with the given name,
    gain and bias. *)
Definition sample_band (band_name : string) (g b : float) : Espa_band_meta_t :=
  make_band band_name ESPA_INT16 g b (-3333) (-3333) (-3333) [] []
    "2014-08-07T00:00:00Z".

Definition sample_global (inst : string) : Espa_global_meta_t :=
  {| data_provider := "USGS/EROS";
     satellite := "LANDSAT_7";
     instrument := inst;
     acquisition_date := "2014-01-06";
     level1_production_date := "2014-01-20T00:00:00Z";
     lpgs_metadata_file := "scene_MTL.txt";
     solar_zenith := 55.5%float;
     solar_azimuth := 151.25%float;
     wrs_system := 2;
     wrs_path := 29;
     wrs_row := 30;
     ul_corner := (44.5%float, (-98.5)%float);
     lr_corner := (42.5%float, (-95.5)%float);
     bounding_coords := fun _ => 0%float |}.

(** Bands with the gains 1, 2, 3, ... and the biases -1, -2, -3, ...,
    named [b1], [b2], ... *)
Fixpoint numbered_bands (n : nat) (k : Z) : list Espa_band_meta_t :=
  match n with
  | O => []
  | S n' =>
      sample_band ("b" ^^ fmt_d k) (float_of_Z k) (float_of_Z (- k))
        :: numbered_bands n' (k + 1)
  end.

(** A scene of [n] such bands for the instrument [inst]. *)
Definition sample_scene (inst : string) (n : nat) : Espa_internal_meta_t :=
  {| global := sample_global inst; band := numbered_bands n 1 |}.

(** The bands of the given names, without gains and biases. *)
Definition sr_bands (names : list string) : list Espa_band_meta_t :=
  map (fun band_name => sample_band band_name (-3333) (-3333)) names.

(** The level 1 band [k], named [band<k>], with the gain [k] and the bias
    [-k], produced before the bands of the table. *)
Definition l1_band (k : Z) : Espa_band_meta_t :=
  make_band ("band" ^^ fmt_d k) ESPA_UINT8 (float_of_Z k) (float_of_Z (- k))
    (-3333) (-3333) (-3333) [] [] "2013-05-20T12:00:00Z".

(** A TM scene as the XML files have them: the seven level 1 bands, then
    the bands of the table. *)
Definition l1_sr_scene : Espa_internal_meta_t :=
  {| global := sample_global "TM";
     band := map l1_band [1; 2; 3; 4; 5; 6; 7]
             ++ sr_bands (map fst hdfname_mapping) |}.




Definition hundred : string :=
  String.concat "" (repeat "0123456789" 10).


(** The band [sr_band1] with the same sixty descriptions. *)
Definition long_sr_band1 : Espa_band_meta_t :=
  make_band "sr_band1" ESPA_INT16 (-3333) (-3333) (-3333) (-3333) (-3333)
    (repeat hundred 60) [] "2014-08-07T00:00:00Z".

(** ** Vocabulary of the statements *)

(** The attributes of the name [n] among the events [d]. *)
Definition attrs_named (n : string) (d : trace) : trace :=
  filter
    (fun e =>
       match e with
       | put_attr_string n' _ _ | put_attr_double n' _ _ _ => String.eqb n' n
       | _ => false
       end)
    d.

(** The messages given to [error_handler] in the events [d]. *)
Definition error_messages (d : trace) : list string :=
  flat_map
    (fun e => match e with error_handler _ msg => [msg] | _ => [] end) d.


(** Every external call succeeds, whatever was called before. *)
Definition all_calls_succeed (hdf_ok : trace -> event -> bool) : Prop :=
  forall tr c, hdf_ok tr c = true.

(** Whether [m] ends normally, with [ERROR] or (not for undefined runs),
    it only adds events that satisfy [P] to the trace. *)
Definition emits_only (P : event -> Prop) {A : Type} (m : M A) : Prop :=
  forall tr,
    match m tr with
    | Ok _ tr' | Error tr' => exists d, tr' = tr ++ d /\ Forall P d
    | Undef => True
    end.

(** The gain/bias attributes among the events [d], in the order written. *)
Definition gain_bias_events (d : trace) : trace := filter is_gain_bias_attr d.

(** The writes of a vector of gains and of the vector of biases. *)
Definition gain_bias_pair (gains_name bias_name : string)
  (bands : list Espa_band_meta_t) : trace :=
  [ put_attr_double gains_name DFNT_FLOAT64 (Z.of_nat (List.length bands))
      (map toa_gain bands);
    put_attr_double bias_name DFNT_FLOAT64 (Z.of_nat (List.length bands))
      (map toa_bias bands) ].

(** Not one of the six gain/bias attributes. *)
Definition not_gain_bias (e : event) : Prop := is_gain_bias_attr e = false.

(** Every blank of [s] replaced by an underscore, in one pass. *)
Fixpoint underscores (s : string) : string :=
  match s with
  | EmptyString => EmptyString
  | String c rest =>
      String (if Ascii.eqb c " " then "_"%char else c) (underscores rest)
  end.

(** The number of blanks of [s]. *)
Fixpoint count_blanks (s : string) : nat :=
  match s with
  | EmptyString => O
  | String c rest =>
      (if Ascii.eqb c " " then 1 else 0) + count_blanks rest
  end.

(** The band is the one that the row [new_name] of the table asks for. *)
Definition named (new_name : string) (b : Espa_band_meta_t) : bool :=
  String.eqb (name b) new_name.

(** The names of the SDSs created by the events [d], in order. *)
Definition sds_names (d : trace) : list string :=
  flat_map (fun e => match e with SDcreate n _ _ _ => [n] | _ => [] end) d.

(** The old names in the order of the table [mapping], each as many times
    as [bands] has bands of the new name. *)
Definition written_order (mapping : list (string * string))
  (bands : list Espa_band_meta_t) : list string :=
  flat_map
    (fun row => map (fun _ => snd row) (filter (named (fst row)) bands))
    mapping.


(** The new names of the rows of the table but the last (fmask). *)
Definition required_names : list string :=
  removelast (map fst hdfname_mapping).

(** Every required name is the name of a band. *)
Definition required_present (bands : list Espa_band_meta_t) : Prop :=
  forall new_name,
    In new_name required_names -> existsb (named new_name) bands = true.

(** An event of [write_sds_attributes]: an attribute or a message. *)
Definition attribute_event (e : event) : Prop :=
  match e with
  | put_attr_string _ _ _ | put_attr_double _ _ _ _ | error_handler _ _ =>
      True
  | _ => False
  end.

Section Vocabulary.

Context {defs : Espa_defines}.












(** When [m] ends normally, [e] is one of the events that it has added. *)
Definition emits_event {A : Type} (m : M A) (e : event) : Prop :=
  forall tr a tr', m tr = Ok a tr' -> exists d, tr' = tr ++ d /\ In e d.

Definition has_bitmap (b : Espa_band_meta_t) : bool :=
  negb (nbits b =? ESPA_INT_META_FILL) && (0 <? nbits b).

Definition has_classes (b : Espa_band_meta_t) : bool :=
  negb (nclass b =? ESPA_INT_META_FILL) && (0 <? nclass b).

(** The band has a supported data type, and the descriptions of its bits
    and of its classes, when it has some, fit in their buffers. *)
Definition sds_writable (b : Espa_band_meta_t) : Prop :=
  (forall code, data_type b <> ESPA_OTHER code)
  /\ (has_bitmap b = true ->
      exists message, forall tr, bitmap_message b tr = Ok message tr)
  /\ (has_classes b = true ->
      exists message, forall tr, class_message b tr = Ok message tr).

(** The bands that a row of the table names are writable. *)
Definition table_bands_writable (bands : list Espa_band_meta_t) : Prop :=
  forall b, In b bands -> In (name b) (map fst hdfname_mapping) ->
            sds_writable b.

End Vocabulary.

(** ** Vocabulary of the further properties *)

(** The name of the attribute that an event writes, and the command that
    an event runs. *)
Definition attribute_name (e : event) : list string :=
  match e with
  | put_attr_string n _ _ | put_attr_double n _ _ _ => [n]
  | _ => []
  end.

Definition command (e : event) : list string :=
  match e with
  | system cmd => [cmd]
  | _ => []
  end.

(** What [proj] keeps of the events that [m] adds is [full], in this
    order: all of it when [m] ends normally, a first part of it when [m]
    returns [ERROR]. *)
Definition lists {X A : Type} (proj : event -> list X) (m : M A)
  (full : list X) : Prop :=
  forall tr,
    match m tr with
    | Ok _ tr' => exists d, tr' = tr ++ d /\ flat_map proj d = full
    | Error tr' =>
        exists d, tr' = tr ++ d /\ exists rest, full = flat_map proj d ++ rest
    | Undef => True
    end.

(** [m] only adds events to the trace, and when it returns [ERROR] the
    last event is a message of the function [func]. *)
Definition reports {A : Type} (func : string) (m : M A) : Prop :=
  forall tr,
    match m tr with
    | Ok _ tr' => exists d, tr' = tr ++ d
    | Error tr' => exists d msg, tr' = tr ++ d ++ [error_handler func msg]
    | Undef => True
    end.

(** The name of the band is the new name of a row of the table. *)
Definition in_table (b : Espa_band_meta_t) : bool :=
  existsb (String.eqb (name b)) (map fst hdfname_mapping).

(** Not the writing of an ENVI header. *)
Definition no_envi_header (e : event) : Prop :=
  match e with
  | write_envi_hdr _ => False
  | _ => True
  end.

(** The band with the valid range [r], the saturation value [s] and the
    version [v] of the application. *)
Definition with_optional (r : Z * Z) (s : Z) (v : string)
  (b : Espa_band_meta_t) : Espa_band_meta_t :=
  {| name := name b;
     data_type := data_type b;
     nlines := nlines b;
     nsamps := nsamps b;
     fill_value := fill_value b;
     saturate_value := s;
     scale_factor := scale_factor b;
     add_offset := add_offset b;
     long_name := long_name b;
     file_name := file_name b;
     data_units := data_units b;
     valid_range := r;
     toa_gain := toa_gain b;
     toa_bias := toa_bias b;
     nbits := nbits b;
     bitmap_description := bitmap_description b;
     nclass := nclass b;
     class_values := class_values b;
     calibrated_nt := calibrated_nt b;
     app_version := v;
     production_date := production_date b |}.

(** A band [sr_band1] of a data type that the switch does not know. *)
Definition other_type_band : Espa_band_meta_t :=
  make_band "sr_band1" (ESPA_OTHER 99) (-3333) (-3333) (-3333) (-3333)
    (-3333) [] [] "2014-08-07T00:00:00Z".

(** The same metadata for every XML file. *)
Definition parse_as (xml_metadata : Espa_internal_meta_t)
  : string -> option Espa_internal_meta_t :=
  fun _ => Some xml_metadata.

Section Further_vocabulary.

Context {defs : Espa_defines}.

(** The attributes of the SDS of a band, in the order in which
    [write_sds_attributes] writes them. *)
Definition sds_attribute_names (b : Espa_band_meta_t) : list string :=
  ["long_name"] ++ ["units"]
  ++ (if negb (fst (valid_range b) =? ESPA_INT_META_FILL)
         && negb (snd (valid_range b) =? ESPA_INT_META_FILL)
      then ["valid_range"] else [])
  ++ ["_FillValue"]
  ++ (if negb (saturate_value b =? ESPA_INT_META_FILL)
      then ["_SaturateValue"] else [])
  ++ (if negb (PrimFloat.eqb (scale_factor b) (float_of_Z ESPA_INT_META_FILL))
      then ["scale_factor"] else [])
  ++ (if negb (PrimFloat.eqb (add_offset b) (float_of_Z ESPA_INT_META_FILL))
      then ["add_offset"] else [])
  ++ (if float_not_fill (calibrated_nt b) then ["calibrated_nt"] else [])
  ++ (if has_bitmap b then ["Bitmap description"] else [])
  ++ (if has_classes b then ["Class description"] else [])
  ++ (if negb (String.eqb (app_version b) ESPA_STRING_META_FILL)
      then ["app_version"] else []).

(** The global attributes after the eleven first ones, for the gains and
    biases [gb] that are kept. *)
Definition calibration_and_bounds (xml_metadata : Espa_internal_meta_t)
  (gb : gain_bias_t) : list string :=
  (if 0 <? ngain_bias gb
   then [OUTPUT_REFL_GAINS] ++ [OUTPUT_REFL_BIAS] else [])
  ++ (if 0 <? ngain_bias_thm gb
      then [OUTPUT_THM_GAINS] ++ [OUTPUT_THM_BIAS] else [])
  ++ (if (is_ETM (instrument (global xml_metadata))
          || is_OLI_TIRS (instrument (global xml_metadata)))
         && (0 <? ngain_bias gb)
      then [OUTPUT_PAN_GAIN] ++ [OUTPUT_PAN_BIAS] else [])
  ++ ["UpperLeftCornerLatLong"] ++ ["LowerRightCornerLatLong"]
  ++ ["WestBoundingCoordinate"] ++ ["EastBoundingCoordinate"]
  ++ ["NorthBoundingCoordinate"] ++ ["SouthBoundingCoordinate"]
  ++ ["HDFVersion"] ++ ["HDFEOSVersion"] ++ ["ProductionDate"].

(** The global attributes in the order in which [write_global_attributes]
    writes them. *)
Definition global_attribute_names (xml_metadata : Espa_internal_meta_t)
  : list string :=
  ["DataProvider"] ++ ["Satellite"] ++ ["Instrument"] ++ ["AcquisitionDate"]
  ++ ["Level1ProductionDate"] ++ ["LPGSMetadataFile"] ++ ["SolarZenith"]
  ++ ["SolarAzimuth"] ++ ["WRS_System"] ++ ["WRS_Path"] ++ ["WRS_Row"]
  ++ match gains_and_biases xml_metadata with
     | Some gb => calibration_and_bounds xml_metadata gb
     | None => []
     end.

(** The name of the GeoTIFF file of a band and the command that converts
    the band. *)
Definition gtif_name (gtif_file : string) (b : Espa_band_meta_t) : string :=
  underscores (gtif_file ^^ "_" ^^ name b ^^ ".tif").

Definition gdal_command (gtif_file : string) (b : Espa_band_meta_t)
  : string :=
  "gdal_translate -of Gtiff -a_nodata " ^^ fmt_d (fill_value b)
  ^^ " -co " ^^ DQUOTE ^^ "TFW=YES" ^^ DQUOTE ^^ " -q "
  ^^ file_name b ^^ " " ^^ gtif_name gtif_file b.

(** The name of the file and the command fit in their buffers. *)
Definition gtif_fits (gtif_file : string) (b : Espa_band_meta_t) : Prop :=
  strlen (gtif_file ^^ "_" ^^ name b ^^ ".tif") < STR_SIZE
  /\ strlen (gdal_command gtif_file b) < STR_SIZE.

(** What an event of the loop over the SDSs says of the bands: an SDS is
    the band of a row of the table, of rank 2 with the lines and samples of
    the band; its dimensions are named [YDim] and [XDim]; its data are the
    file of a band, from the offset 0. *)
Definition sds_event_of (bands : list Espa_band_meta_t) (e : event) : Prop :=
  match e with
  | SDcreate sds_name t rank dims =>
      exists b, In b bands
        /\ In (name b, sds_name) hdfname_mapping
        /\ (forall tr, hdf_data_type (data_type b) tr = Ok t tr)
        /\ rank = 2 /\ dims = [nlines b; nsamps b]
  | SDsetdimname dim dim_name =>
      (dim = 0 /\ dim_name = "YDim") \/ (dim = 1 /\ dim_name = "XDim")
  | SDsetexternalfile f offset =>
      offset = 0 /\ exists b, In b bands /\ in_table b = true
                              /\ f = file_name b
  | _ => True
  end.

End Further_vocabulary.

(** * Properties *)

(** ** The monad *)

Section Monad_facts.

Context {defs : Espa_defines}.
Variable hdf_ok : trace -> event -> bool.

Lemma bind_ret {A B : Type} (a : A) (k : A -> M B) (tr : trace) :
  bind (ret a) k tr = k a tr.
Proof. reflexivity. Qed.

Lemma bind_read_some {A B : Type} (a : A) (k : A -> M B) (tr : trace) :
  bind (read (Some a)) k tr = k a tr.
Proof. reflexivity. Qed.

Lemma bind_emit {B : Type} (c : event) (k : unit -> M B) (tr : trace) :
  bind (emit c) k tr = k tt (tr ++ [c]).
Proof. reflexivity. Qed.

Lemma attempt_ok (c : event) (func msg : string) (tr : trace) :
  all_calls_succeed hdf_ok ->
  attempt hdf_ok c func msg tr = Ok tt (tr ++ [c]).
Proof. intros H. unfold attempt. now rewrite H. Qed.

Lemma bind_attempt_ok {B : Type} (c : event) (func msg : string)
  (k : unit -> M B) (tr : trace) :
  all_calls_succeed hdf_ok ->
  bind (attempt hdf_ok c func msg) k tr = k tt (tr ++ [c]).
Proof. intros H. unfold bind. now rewrite attempt_ok. Qed.

Lemma bind_assoc {A B C : Type} (m : M A) (f : A -> M B) (g : B -> M C)
  (tr : trace) :
  bind (bind m f) g tr = bind m (fun a => bind (f a) g) tr.
Proof. unfold bind. now destruct (m tr). Qed.

Lemma bind_ok {A B : Type} (m : M A) (k : A -> M B) (tr tr' : trace) (a : A) :
  m tr = Ok a tr' -> bind m k tr = k a tr'.
Proof. intros H. unfold bind. now rewrite H. Qed.


Lemma on_error_ok {A : Type} (m : M A) (func msg : string) (tr tr' : trace)
  (a : A) :
  m tr = Ok a tr' -> on_error m func msg tr = Ok a tr'.
Proof. intros H. unfold on_error. now rewrite H. Qed.

Lemma emits_only_ret (P : event -> Prop) {A : Type} (a : A) :
  emits_only P (ret a).
Proof. intros tr. exists []. now rewrite app_nil_r. Qed.

Lemma emits_only_read (P : event -> Prop) {A : Type} (o : option A) :
  emits_only P (read o).
Proof.
  intros tr. unfold read. destruct o; [|exact I].
  exists []. now rewrite app_nil_r.
Qed.

Lemma emits_only_emit (P : event -> Prop) (c : event) :
  P c -> emits_only P (emit c).
Proof. intros Hc tr. exists [c]. auto. Qed.

Lemma emits_only_fail_with (P : event -> Prop) {A : Type} (func msg : string) :
  P (error_handler func msg) -> emits_only P (@fail_with A func msg).
Proof. intros He tr. exists [error_handler func msg]. auto. Qed.

Lemma emits_only_attempt (P : event -> Prop) (c : event) (func msg : string) :
  P c -> P (error_handler func msg) ->
  emits_only P (attempt hdf_ok c func msg).
Proof.
  intros Hc He tr. unfold attempt.
  destruct (hdf_ok tr c); eexists; split; eauto.
Qed.

Lemma emits_only_bind (P : event -> Prop) {A B : Type} (m : M A)
  (k : A -> M B) :
  emits_only P m -> (forall a, emits_only P (k a)) -> emits_only P (bind m k).
Proof.
  intros Hm Hk tr. unfold bind. specialize (Hm tr).
  destruct (m tr) as [a tr'| tr' |]; [| exact Hm | exact I].
  destruct Hm as (d & -> & Hd). specialize (Hk a (tr ++ d)).
  destruct (k a (tr ++ d)) as [b tr''| tr'' |]; [| | exact I];
    destruct Hk as (d' & -> & Hd'); exists (d ++ d');
    (split; [now rewrite app_assoc | now apply Forall_app]).
Qed.

Lemma emits_only_bind_read (P : event -> Prop) {A B : Type} (o : option A)
  (k : A -> M B) :
  (forall a, o = Some a -> emits_only P (k a)) ->
  emits_only P (bind (read o) k).
Proof.
  intros Hk tr. destruct o as [a|]; [|exact I]. exact (Hk a eq_refl tr).
Qed.

Lemma bind_Ok_inv {A B : Type} (m : M A) (k : A -> M B) (tr tr' : trace)
  (b : B) :
  bind m k tr = Ok b tr' ->
  exists a tr1, m tr = Ok a tr1 /\ k a tr1 = Ok b tr'.
Proof.
  unfold bind. destruct (m tr) as [a tr1| |]; try discriminate. eauto.
Qed.

Lemma emits_only_Ok (P : event -> Prop) {A : Type} (m : M A) (tr tr' : trace)
  (a : A) :
  emits_only P m -> m tr = Ok a tr' -> exists d, tr' = tr ++ d /\ Forall P d.
Proof. intros Hm H. specialize (Hm tr). now rewrite H in Hm. Qed.

Lemma emits_only_any {A : Type} (m : M A) (tr tr' : trace) (a : A) :
  emits_only (fun _ => True) m -> m tr = Ok a tr' -> exists d, tr' = tr ++ d.
Proof.
  intros Hm H. destruct (emits_only_Ok _ _ _ _ _ Hm H) as (d & -> & _).
  now exists d.
Qed.


Lemma emits_event_bind_r {A B : Type} (m : M A) (k : A -> M B) (e : event) :
  emits_only (fun _ => True) m -> (forall a, emits_event (k a) e) ->
  emits_event (bind m k) e.
Proof.
  intros Hm Hk tr b tr' H. apply bind_Ok_inv in H as (a & tr1 & H1 & H2).
  destruct (emits_only_any _ _ _ _ Hm H1) as (d1 & ->).
  destruct (Hk a _ _ _ H2) as (d2 & -> & Hin).
  exists (d1 ++ d2). split; [now rewrite app_assoc|].
  apply in_or_app. now right.
Qed.

Lemma emits_event_attempt (c : event) (func msg : string) :
  emits_event (attempt hdf_ok c func msg) c.
Proof.
  intros tr a tr'. unfold attempt. destruct (hdf_ok tr c); [|discriminate].
  intros H. injection H as H. subst tr'. exists [c].
  split; [reflexivity | now left].
Qed.

End Monad_facts.

(** An event that is allowed by what it is. *)
Ltac event_ok :=
  first
    [ reflexivity
    | exact I
    | solve [auto]
    | split; intros ?; discriminate ].

(** Steps through a block: binds, reads, calls and tests. *)
Ltac emits_step :=
  first
    [ apply emits_only_ret
    | apply emits_only_read
    | apply emits_only_fail_with; event_ok
    | apply emits_only_attempt; event_ok
    | apply emits_only_emit; event_ok
    | apply emits_only_bind; [| intros ? ]
    | match goal with
      | |- emits_only _ (if ?b then _ else _) => destruct b
      end ].

(** Runs a block in which every call succeeds. *)
Ltac run_calls H :=
  repeat first
    [ rewrite (bind_attempt_ok _ _ _ _ _ _ H)
    | rewrite bind_assoc
    | rewrite bind_read_some
    | rewrite bind_emit
    | rewrite bind_ret
    | rewrite (attempt_ok _ _ _ _ _ H) ].

Ltac finish_run :=
  repeat rewrite <- app_assoc; eexists; split; [reflexivity | reflexivity].

(** ** Gains and biases by instrument *)

Section Gain_bias_facts.

Context {defs : Espa_defines}.
Variable hdf_ok : trace -> event -> bool.

Lemma is_ETM_not_TM (inst : string) : is_ETM inst = true -> is_TM inst = false.
Proof.
  intros H. unfold is_TM. destruct (String.eqb_spec inst "TM") as [->|];
    [discriminate H | reflexivity].
Qed.

Lemma gains_and_biases_no_band0_values (xml_metadata : Espa_internal_meta_t)
  (b0 : Espa_band_meta_t) (rest : list Espa_band_meta_t) :
  band xml_metadata = b0 :: rest ->
  gain_bias_exist b0 = false ->
  gains_and_biases xml_metadata = Some no_gain_bias.
Proof.
  intros Hb H0. unfold gains_and_biases. rewrite Hb. cbn [nth_error].
  rewrite H0.
  repeat match goal with |- context [if ?b then _ else _] => destruct b end;
    reflexivity.
Qed.

Lemma gains_and_biases_other_instrument (xml_metadata : Espa_internal_meta_t) :
  is_TM (instrument (global xml_metadata)) = false ->
  is_ETM (instrument (global xml_metadata)) = false ->
  is_OLI_TIRS (instrument (global xml_metadata)) = false ->
  gains_and_biases xml_metadata = Some no_gain_bias.
Proof.
  intros H1 H2 H3. unfold gains_and_biases. now rewrite H1, H2, H3.
Qed.

(** Without gains and biases, [write_global_attributes] writes none of
    the six attributes, whichever calls fail. *)
Lemma write_global_attributes_no_gain_bias
  (xml_metadata : Espa_internal_meta_t) :
  gains_and_biases xml_metadata = Some no_gain_bias ->
  emits_only not_gain_bias (write_global_attributes hdf_ok xml_metadata).
Proof.
  intros Hgb. unfold write_global_attributes. rewrite Hgb.
  repeat (apply emits_only_bind;
          [apply emits_only_attempt; reflexivity | intros _]).
  apply emits_only_bind_read. intros gb [= <-].
  cbn [ngain_bias ngain_bias_thm no_gain_bias Z.ltb Z.compare andb].
  rewrite andb_false_r.
  repeat emits_step.
Qed.

(** C1. With every call succeeding and gain and bias present on band 1
    (index 0): a TM scene gives the six reflective pairs of the indices
    0, 1, 2, 3, 4, 6, the thermal pair of index 5 and no pan pair; a scene of
    the ETM family gives the six reflective pairs of 0-4 and 7, the two
    thermal pairs of 5 and 6 and the pan pair of index 8; an OLI_TIRS scene
    gives the eight reflective pairs of 0-6 and 8, the two thermal pairs of
    9 and 10 and the pan pair of index 7. These are the vectors that
    [gains_and_biases] computes and the attributes that
    [write_global_attributes] writes, in this order. *)
Theorem gain_bias_by_instrument :
  all_calls_succeed hdf_ok ->
  (forall g b0 b1 b2 b3 b4 b5 b6 rest tr,
      instrument g = "TM" -> gain_bias_exist b0 = true ->
      let xml_metadata :=
        {| global := g;
           band := b0 :: b1 :: b2 :: b3 :: b4 :: b5 :: b6 :: rest |} in
      gains_and_biases xml_metadata =
        Some {| ngain_bias := 6; ngain_bias_thm := 1;
                gain := map toa_gain [b0; b1; b2; b3; b4; b6];
                bias := map toa_bias [b0; b1; b2; b3; b4; b6];
                gain_thm := [toa_gain b5]; bias_thm := [toa_bias b5] |}
      /\ exists d,
          write_global_attributes hdf_ok xml_metadata tr = Ok tt (tr ++ d)
          /\ gain_bias_events d =
               gain_bias_pair OUTPUT_REFL_GAINS OUTPUT_REFL_BIAS
                 [b0; b1; b2; b3; b4; b6]
               ++ gain_bias_pair OUTPUT_THM_GAINS OUTPUT_THM_BIAS [b5])
  /\ (forall g b0 b1 b2 b3 b4 b5 b6 b7 b8 rest tr,
        is_ETM (instrument g) = true -> gain_bias_exist b0 = true ->
        let xml_metadata :=
          {| global := g;
             band := b0 :: b1 :: b2 :: b3 :: b4 :: b5 :: b6 :: b7 :: b8
                       :: rest |} in
        gains_and_biases xml_metadata =
          Some {| ngain_bias := 6; ngain_bias_thm := 2;
                  gain := map toa_gain [b0; b1; b2; b3; b4; b7];
                  bias := map toa_bias [b0; b1; b2; b3; b4; b7];
                  gain_thm := map toa_gain [b5; b6];
                  bias_thm := map toa_bias [b5; b6] |}
        /\ exists d,
            write_global_attributes hdf_ok xml_metadata tr = Ok tt (tr ++ d)
            /\ gain_bias_events d =
                 gain_bias_pair OUTPUT_REFL_GAINS OUTPUT_REFL_BIAS
                   [b0; b1; b2; b3; b4; b7]
                 ++ gain_bias_pair OUTPUT_THM_GAINS OUTPUT_THM_BIAS [b5; b6]
                 ++ gain_bias_pair OUTPUT_PAN_GAIN OUTPUT_PAN_BIAS [b8])
  /\ (forall g b0 b1 b2 b3 b4 b5 b6 b7 b8 b9 b10 rest tr,
        instrument g = "OLI_TIRS" -> gain_bias_exist b0 = true ->
        let xml_metadata :=
          {| global := g;
             band := b0 :: b1 :: b2 :: b3 :: b4 :: b5 :: b6 :: b7 :: b8
                       :: b9 :: b10 :: rest |} in
        gains_and_biases xml_metadata =
          Some {| ngain_bias := 8; ngain_bias_thm := 2;
                  gain := map toa_gain [b0; b1; b2; b3; b4; b5; b6; b8];
                  bias := map toa_bias [b0; b1; b2; b3; b4; b5; b6; b8];
                  gain_thm := map toa_gain [b9; b10];
                  bias_thm := map toa_bias [b9; b10] |}
        /\ exists d,
            write_global_attributes hdf_ok xml_metadata tr = Ok tt (tr ++ d)
            /\ gain_bias_events d =
                 gain_bias_pair OUTPUT_REFL_GAINS OUTPUT_REFL_BIAS
                   [b0; b1; b2; b3; b4; b5; b6; b8]
                 ++ gain_bias_pair OUTPUT_THM_GAINS OUTPUT_THM_BIAS [b9; b10]
                 ++ gain_bias_pair OUTPUT_PAN_GAIN OUTPUT_PAN_BIAS [b7]).
Proof.
  intros Hok. split; [| split].
  - intros g b0 b1 b2 b3 b4 b5 b6 rest tr Hinst H0 xml_metadata.
    assert (Hgb : gains_and_biases xml_metadata = Some
      {| ngain_bias := 6; ngain_bias_thm := 1;
         gain := map toa_gain [b0; b1; b2; b3; b4; b6];
         bias := map toa_bias [b0; b1; b2; b3; b4; b6];
         gain_thm := [toa_gain b5]; bias_thm := [toa_bias b5] |}).
    { unfold gains_and_biases, xml_metadata. cbn [global band instrument].
      rewrite Hinst. cbn [is_TM String.eqb Ascii.eqb Bool.eqb app nth_error].
      rewrite H0. reflexivity. }
    split; [exact Hgb|].
    unfold write_global_attributes. rewrite Hgb.
    subst xml_metadata. cbn [global band instrument]. rewrite Hinst.
    run_calls Hok. cbn -[app bind attempt]. run_calls Hok. finish_run.
  - intros g b0 b1 b2 b3 b4 b5 b6 b7 b8 rest tr Hinst H0 xml_metadata.
    assert (Hgb : gains_and_biases xml_metadata = Some
      {| ngain_bias := 6; ngain_bias_thm := 2;
         gain := map toa_gain [b0; b1; b2; b3; b4; b7];
         bias := map toa_bias [b0; b1; b2; b3; b4; b7];
         gain_thm := map toa_gain [b5; b6];
         bias_thm := map toa_bias [b5; b6] |}).
    { unfold gains_and_biases, xml_metadata. cbn [global band instrument].
      rewrite (is_ETM_not_TM _ Hinst), Hinst. cbn [app nth_error].
      rewrite H0. reflexivity. }
    split; [exact Hgb|].
    unfold write_global_attributes, pan_band. rewrite Hgb.
    subst xml_metadata. cbn [global band instrument]. rewrite Hinst.
    run_calls Hok. cbn -[app bind attempt]. run_calls Hok. finish_run.
  - intros g b0 b1 b2 b3 b4 b5 b6 b7 b8 b9 b10 rest tr Hinst H0 xml_metadata.
    assert (Hgb : gains_and_biases xml_metadata = Some
      {| ngain_bias := 8; ngain_bias_thm := 2;
         gain := map toa_gain [b0; b1; b2; b3; b4; b5; b6; b8];
         bias := map toa_bias [b0; b1; b2; b3; b4; b5; b6; b8];
         gain_thm := map toa_gain [b9; b10];
         bias_thm := map toa_bias [b9; b10] |}).
    { unfold gains_and_biases, xml_metadata. cbn [global band instrument].
      rewrite Hinst. cbn [is_TM is_ETM is_OLI_TIRS String.eqb String.prefix
                           Ascii.eqb Bool.eqb app nth_error].
      rewrite H0. reflexivity. }
    split; [exact Hgb|].
    unfold write_global_attributes, pan_band. rewrite Hgb.
    subst xml_metadata. cbn [global band instrument]. rewrite Hinst.
    run_calls Hok. cbn -[app bind attempt]. run_calls Hok. finish_run.
Qed.

Lemma gain_bias_events_none (d : trace) :
  Forall not_gain_bias d -> gain_bias_events d = [].
Proof.
  unfold gain_bias_events, not_gain_bias.
  induction 1 as [|e d He Hd IH]; [reflexivity|].
  cbn [filter]. now rewrite He.
Qed.

(** Without gains and biases and with a first band,
    [write_global_attributes] returns [SUCCESS] when every call does. *)
Lemma write_global_attributes_no_gain_bias_ok
  (xml_metadata : Espa_internal_meta_t) (b0 : Espa_band_meta_t)
  (rest : list Espa_band_meta_t) (tr : trace) :
  all_calls_succeed hdf_ok ->
  gains_and_biases xml_metadata = Some no_gain_bias ->
  band xml_metadata = b0 :: rest ->
  exists d,
    write_global_attributes hdf_ok xml_metadata tr = Ok tt (tr ++ d)
    /\ gain_bias_events d = [].
Proof.
  intros Hok Hgb Hb.
  pose proof (write_global_attributes_no_gain_bias _ Hgb tr) as Hemit.
  assert (Hrun : exists tr',
             write_global_attributes hdf_ok xml_metadata tr = Ok tt tr').
  { unfold write_global_attributes. rewrite Hgb, Hb. run_calls Hok.
    cbn -[app bind attempt]. rewrite andb_false_r. run_calls Hok.
    eexists. reflexivity. }
  destruct Hrun as (tr' & Hrun). rewrite Hrun in Hemit |- *.
  destruct Hemit as (d & -> & Hd). exists d. split; [reflexivity|].
  now apply gain_bias_events_none.
Qed.

(** C2. When the gain or the bias of band 1 (index 0) is the fill value
    (the test of the source, within [ESPA_EPSILON] of
    [ESPA_FLOAT_META_FILL]), no gains or biases are kept, whatever the
    instrument (so for the three recognized ones) and whatever the values
    of the other bands: [write_global_attributes] writes none of the six
    gain/bias attributes, whether calls fail or not, and returns [SUCCESS]
    when every call succeeds. *)
Theorem no_gain_bias_when_band0_is_fill :
  forall (xml_metadata : Espa_internal_meta_t) (b0 : Espa_band_meta_t)
    (rest : list Espa_band_meta_t),
    band xml_metadata = b0 :: rest ->
    gain_bias_exist b0 = false ->
    gains_and_biases xml_metadata = Some no_gain_bias
    /\ emits_only not_gain_bias (write_global_attributes hdf_ok xml_metadata)
    /\ (all_calls_succeed hdf_ok ->
        forall tr, exists d,
          write_global_attributes hdf_ok xml_metadata tr = Ok tt (tr ++ d)
          /\ gain_bias_events d = []).
Proof.
  intros xml_metadata b0 rest Hb H0.
  pose proof (gains_and_biases_no_band0_values _ _ _ Hb H0) as Hgb.
  split; [exact Hgb | split].
  - now apply write_global_attributes_no_gain_bias.
  - intros Hok tr.
    now apply write_global_attributes_no_gain_bias_ok
      with (b0 := b0) (rest := rest).
Qed.

(** C8. For an instrument that is not "TM", does not start with "ETM" and
    is not "OLI_TIRS", no gains or biases are kept and no band is read for
    them: [write_global_attributes] writes none of the six gain/bias
    attributes, whether calls fail or not, and with a first band (for the
    production date) it returns [SUCCESS] when every call succeeds. *)
Theorem no_gain_bias_for_other_instruments :
  forall xml_metadata : Espa_internal_meta_t,
    is_TM (instrument (global xml_metadata)) = false ->
    is_ETM (instrument (global xml_metadata)) = false ->
    is_OLI_TIRS (instrument (global xml_metadata)) = false ->
    gains_and_biases xml_metadata = Some no_gain_bias
    /\ emits_only not_gain_bias (write_global_attributes hdf_ok xml_metadata)
    /\ (all_calls_succeed hdf_ok ->
        forall b0 rest tr,
          band xml_metadata = b0 :: rest ->
          exists d,
            write_global_attributes hdf_ok xml_metadata tr = Ok tt (tr ++ d)
            /\ gain_bias_events d = []).
Proof.
  intros xml_metadata H1 H2 H3.
  pose proof (gains_and_biases_other_instrument _ H1 H2 H3) as Hgb.
  split; [exact Hgb | split].
  - now apply write_global_attributes_no_gain_bias.
  - intros Hok b0 rest tr Hb.
    now apply write_global_attributes_no_gain_bias_ok
      with (b0 := b0) (rest := rest).
Qed.

End Gain_bias_facts.

Lemma all_ok_succeeds : all_calls_succeed all_ok.
Proof. intros tr c. reflexivity. Qed.

(** C1 on an ETM+ scene of nine bands with the gains 1 to 9 and the
    biases -1 to -9. *)
Lemma gain_bias_by_instrument_witness :
  exists d,
    write_global_attributes (defs := sample_defines) all_ok
      (sample_scene "ETM+" 9) [] = Ok tt ([] ++ d)
    /\ gain_bias_events d =
         [ put_attr_double "ReflGains" DFNT_FLOAT64 6
             [1; 2; 3; 4; 5; 8]%float;
           put_attr_double "ReflBias" DFNT_FLOAT64 6
             [-1; -2; -3; -4; -5; -8]%float;
           put_attr_double "ThermalGains" DFNT_FLOAT64 2 [6; 7]%float;
           put_attr_double "ThermalBias" DFNT_FLOAT64 2 [-6; -7]%float;
           put_attr_double "PanGain" DFNT_FLOAT64 1 [9%float];
           put_attr_double "PanBias" DFNT_FLOAT64 1 [(-9)%float] ].
Proof.
  exact (proj2 (proj1 (proj2
    (gain_bias_by_instrument (defs := sample_defines) all_ok all_ok_succeeds))
    (sample_global "ETM+")
    (sample_band "b1" 1 (-1)) (sample_band "b2" 2 (-2))
    (sample_band "b3" 3 (-3)) (sample_band "b4" 4 (-4))
    (sample_band "b5" 5 (-5)) (sample_band "b6" 6 (-6))
    (sample_band "b7" 7 (-7)) (sample_band "b8" 8 (-8))
    (sample_band "b9" 9 (-9)) [] [] eq_refl eq_refl)).
Defined.

(** C2 on a TM scene whose first band has the fill value -3333 as gain and
    bias, the other six bands having gains and biases. *)
Lemma no_gain_bias_when_band0_is_fill_witness :
  let xml_metadata :=
    {| global := sample_global "TM";
       band := sample_band "b1" (-3333) (-3333) :: numbered_bands 6 2 |} in
  gains_and_biases (defs := sample_defines) xml_metadata = Some no_gain_bias
  /\ emits_only not_gain_bias
       (write_global_attributes (defs := sample_defines) all_ok xml_metadata)
  /\ (all_calls_succeed all_ok ->
      forall tr, exists d,
        write_global_attributes (defs := sample_defines) all_ok
          xml_metadata tr = Ok tt (tr ++ d)
        /\ gain_bias_events d = []).
Proof.
  exact (no_gain_bias_when_band0_is_fill (defs := sample_defines) all_ok
           {| global := sample_global "TM";
              band := sample_band "b1" (-3333) (-3333) :: numbered_bands 6 2 |}
           (sample_band "b1" (-3333) (-3333)) (numbered_bands 6 2)
           eq_refl eq_refl).
Defined.

(** C8 on a scene of the instrument "MSS". *)
Lemma no_gain_bias_for_other_instruments_witness :
  gains_and_biases (defs := sample_defines) (sample_scene "MSS" 4)
    = Some no_gain_bias
  /\ emits_only not_gain_bias
       (write_global_attributes (defs := sample_defines) all_ok
          (sample_scene "MSS" 4))
  /\ (all_calls_succeed all_ok ->
      forall b0 rest tr,
        band (sample_scene "MSS" 4) = b0 :: rest ->
        exists d,
          write_global_attributes (defs := sample_defines) all_ok
            (sample_scene "MSS" 4) tr = Ok tt (tr ++ d)
          /\ gain_bias_events d = []).
Proof.
  exact (no_gain_bias_for_other_instruments (defs := sample_defines) all_ok
           (sample_scene "MSS" 4) eq_refl eq_refl eq_refl).
Defined.

(** ** The loop over the SDSs of the old HDF file *)

Section Sds_loop_facts.

Context {defs : Espa_defines}.
Variable hdf_ok : trace -> event -> bool.

Lemma bind_ext {A B : Type} (m : M A) (k k' : A -> M B) (tr : trace) :
  (forall a tr', k a tr' = k' a tr') -> bind m k tr = bind m k' tr.
Proof. intros H. unfold bind. destruct (m tr); auto. Qed.

(** The inner loop only looks at the bands of the name it asks for. *)
Lemma scan_bands_filter (bnd : Z) (new_name old_name : string)
  (bands : list Espa_band_meta_t) :
  forall bnd_found tr,
    scan_bands hdf_ok bnd new_name old_name bands bnd_found tr =
    scan_bands hdf_ok bnd new_name old_name (filter (named new_name) bands)
      bnd_found tr.
Proof.
  induction bands as [|b bands IH]; intros bnd_found tr; [reflexivity|].
  cbn [scan_bands filter]. unfold named at 1.
  destruct (String.eqb (name b) new_name) eqn:Hname; cbn [negb].
  - cbn [scan_bands]. fold (named new_name b). unfold named at 1.
    rewrite Hname. cbn [negb]. apply bind_ext. intros _ tr'. apply IH.
  - apply IH.
Qed.

(** The result of the inner loop is [bnd_found]. *)
Lemma scan_bands_found (bnd : Z) (new_name old_name : string)
  (bands : list Espa_band_meta_t) :
  forall bnd_found tr found tr',
    scan_bands hdf_ok bnd new_name old_name bands bnd_found tr = Ok found tr' ->
    found = bnd_found || existsb (named new_name) bands.
Proof.
  induction bands as [|b bands IH]; intros bnd_found tr found tr' H.
  - cbn in H. injection H as <- _. now rewrite orb_false_r.
  - cbn [scan_bands existsb] in H |- *. unfold named at 1.
    destruct (String.eqb (name b) new_name); cbn [negb orb] in H |- *.
    + apply bind_Ok_inv in H as (_ & tr1 & _ & H).
      apply IH in H. rewrite H. now rewrite orb_true_r.
    + now apply IH in H.
Qed.

Lemma scan_bands_none (bnd : Z) (new_name old_name : string)
  (bands : list Espa_band_meta_t) (bnd_found : bool) (tr : trace) :
  existsb (named new_name) bands = false ->
  scan_bands hdf_ok bnd new_name old_name bands bnd_found tr = Ok bnd_found tr.
Proof.
  intros H. rewrite scan_bands_filter.
  replace (filter (named new_name) bands) with (@nil Espa_band_meta_t);
    [reflexivity|].
  induction bands as [|b bands IH]; [reflexivity|].
  cbn [existsb filter] in H |- *. apply orb_false_iff in H as [-> H]. auto.
Qed.

(** Two band lists with the same bands of each name of the table, in the
    same order, give the same run of the loop. *)
Lemma sds_loop_filter (mapping : list (string * string))
  (bands bands' : list Espa_band_meta_t) :
  (forall row, In row mapping ->
     filter (named (fst row)) bands = filter (named (fst row)) bands') ->
  forall bnd tr,
    sds_loop hdf_ok bnd mapping bands tr =
    sds_loop hdf_ok bnd mapping bands' tr.
Proof.
  induction mapping as [|[new_name old_name] mapping IH]; intros H bnd tr;
    [reflexivity|].
  cbn [sds_loop]. unfold bind.
  rewrite scan_bands_filter, (scan_bands_filter _ _ _ bands').
  pose proof (H (new_name, old_name) (or_introl eq_refl)) as Hhere.
  cbn [fst] in Hhere. rewrite Hhere.
  destruct (scan_bands _ _ _ _ _ _ _) as [found tr'| |]; try reflexivity.
  destruct (negb found && negb (bnd =? NOLD_SR - 1)); [reflexivity|].
  apply IH. intros row Hrow. apply H. now right.
Qed.

(** The loop over a table in two parts. *)
Lemma sds_loop_app (pre post : list (string * string))
  (bands : list Espa_band_meta_t) :
  forall bnd tr,
    sds_loop hdf_ok bnd (pre ++ post) bands tr =
    bind (sds_loop hdf_ok bnd pre bands)
      (fun _ => sds_loop hdf_ok (bnd + Z.of_nat (List.length pre)) post bands)
      tr.
Proof.
  induction pre as [|[new_name old_name] pre IH]; intros bnd tr.
  - cbn [app sds_loop List.length Z.of_nat]. rewrite Z.add_0_r. reflexivity.
  - cbn [app sds_loop]. rewrite bind_assoc. apply bind_ext. intros found tr'.
    destruct (negb found && negb (bnd =? NOLD_SR - 1)); [reflexivity|].
    rewrite IH. apply bind_ext. intros _ tr''. f_equal.
    cbn [List.length]. lia.
Qed.

(** A run of the loop that ends normally has found every row but,
    possibly, the one of index [NOLD_SR - 1]. *)
Lemma sds_loop_Ok_found (mapping : list (string * string))
  (bands : list Espa_band_meta_t) :
  forall bnd tr tr',
    sds_loop hdf_ok bnd mapping bands tr = Ok tt tr' ->
    forall i row,
      nth_error mapping i = Some row ->
      bnd + Z.of_nat i <> NOLD_SR - 1 ->
      existsb (named (fst row)) bands = true.
Proof.
  induction mapping as [|[new_name old_name] mapping IH];
    intros bnd tr tr' H i row Hi Hlast.
  - now destruct i.
  - cbn [sds_loop] in H. apply bind_Ok_inv in H as (found & tr1 & Hscan & H).
    apply scan_bands_found in Hscan. cbn [orb] in Hscan. subst found.
    destruct i as [|i]; cbn [nth_error] in Hi.
    + injection Hi as <-. cbn [fst].
      destruct (existsb (named new_name) bands); [reflexivity|].
      cbn [negb andb] in H. rewrite Z.add_0_r in Hlast.
      apply Z.eqb_neq in Hlast. rewrite Hlast in H. discriminate H.
    + destruct (negb _ && negb _); [discriminate H|].
      apply (IH _ _ _ H i row Hi). lia.
Qed.

Lemma emits_only_for_loop (P : event -> Prop) {St : Type}
  (body : Z -> St -> M St) (n : nat) :
  (forall i s, emits_only P (body i s)) ->
  forall i s, emits_only P (for_loop n i body s).
Proof.
  intros Hbody. induction n as [|n IH]; intros i s; cbn [for_loop].
  - apply emits_only_ret.
  - apply emits_only_bind; [apply Hbody | intros s'; apply IH].
Qed.

Lemma emits_only_append_line (P : event -> Prop) (num : Z)
  (text message : string) :
  (forall func msg, P (error_handler func msg)) ->
  emits_only P (append_line num text message).
Proof.
  intros HP. unfold append_line, snprintf. repeat emits_step.
Qed.

Lemma emits_only_start_message (P : event -> Prop) (header : string) :
  (forall func msg, P (error_handler func msg)) ->
  emits_only P (start_message header).
Proof.
  intros HP. unfold start_message, snprintf. repeat emits_step.
Qed.

Lemma emits_only_bitmap_message (P : event -> Prop) (b : Espa_band_meta_t) :
  (forall func msg, P (error_handler func msg)) ->
  emits_only P (bitmap_message b).
Proof.
  intros HP. unfold bitmap_message.
  apply emits_only_bind; [now apply emits_only_start_message | intros message].
  apply emits_only_for_loop. intros i s.
  apply emits_only_bind; [apply emits_only_read | intros text].
  now apply emits_only_append_line.
Qed.

Lemma emits_only_class_message (P : event -> Prop) (b : Espa_band_meta_t) :
  (forall func msg, P (error_handler func msg)) ->
  emits_only P (class_message b).
Proof.
  intros HP. unfold class_message.
  apply emits_only_bind; [now apply emits_only_start_message | intros message].
  apply emits_only_for_loop. intros i s.
  apply emits_only_bind; [apply emits_only_read | intros c].
  now apply emits_only_append_line.
Qed.

(** [write_sds_attributes] writes attributes and messages only. *)
Lemma emits_only_write_sds_attributes (b : Espa_band_meta_t) :
  emits_only attribute_event (write_sds_attributes hdf_ok b).
Proof.
  unfold write_sds_attributes.
  repeat first
    [ apply emits_only_bitmap_message; intros; exact I
    | apply emits_only_class_message; intros; exact I
    | emits_step ].
Qed.

Lemma sds_names_app (d d' : trace) :
  sds_names (d ++ d') = sds_names d ++ sds_names d'.
Proof. apply flat_map_app. Qed.

Lemma sds_names_attributes (d : trace) :
  Forall attribute_event d -> sds_names d = [].
Proof.
  induction 1 as [|e d He Hd IH]; [reflexivity|].
  unfold sds_names in *. cbn [flat_map]. rewrite IH.
  destruct e; first [reflexivity | contradiction He].
Qed.

(** With every call succeeding, the attributes of a writable band are
    written. *)
Lemma write_sds_attributes_ok (b : Espa_band_meta_t) (tr : trace) :
  all_calls_succeed hdf_ok ->
  (has_bitmap b = true ->
   exists message, forall tr, bitmap_message b tr = Ok message tr) ->
  (has_classes b = true ->
   exists message, forall tr, class_message b tr = Ok message tr) ->
  exists d,
    write_sds_attributes hdf_ok b tr = Ok tt (tr ++ d)
    /\ Forall attribute_event d.
Proof.
  intros Hok Hbits Hclasses.
  assert (Hrun : exists tr', write_sds_attributes hdf_ok b tr = Ok tt tr').
  { unfold write_sds_attributes, has_bitmap, has_classes in *.
    run_calls Hok.
    repeat match goal with
           | H : true = true -> exists _, forall _, ?m _ = _ |- _ =>
               let message := fresh "message" in
               let Hmessage := fresh "Hmessage" in
               destruct (H eq_refl) as (message & Hmessage); clear H;
               try rewrite (bind_ok m _ _ _ _ (Hmessage _)); run_calls Hok
           | |- context [if ?c then _ else _] =>
               destruct c eqn:?; run_calls Hok
           end.
    all: eexists; reflexivity. }
  destruct Hrun as (tr' & Hrun). rewrite Hrun.
  destruct (emits_only_Ok _ _ _ _ _ (emits_only_write_sds_attributes b) Hrun)
    as (d & -> & Hd).
  now exists d.
Qed.

(** With every call succeeding, a writable band becomes one SDS. *)
Lemma write_sds_ok (bnd : Z) (old_name : string) (b : Espa_band_meta_t)
  (tr : trace) :
  all_calls_succeed hdf_ok ->
  sds_writable b ->
  exists d,
    write_sds hdf_ok bnd old_name b tr = Ok tt (tr ++ d)
    /\ sds_names d = [old_name].
Proof.
  intros Hok Hb. pose proof Hb as (Htype & _).
  unfold write_sds. run_calls Hok.
  assert (Ht : exists t,
             forall tr', hdf_data_type (data_type b) tr' = Ok t tr').
  { destruct (data_type b); try (eexists; intros; reflexivity).
    now contradiction (Htype code). }
  destruct Ht as (t & Ht). rewrite (bind_ok _ _ _ _ _ (Ht _)).
  cbn [for_loop]. run_calls Hok.
  match goal with
  | |- context [bind (on_error (write_sds_attributes _ _) _ _) _ ?tr0] =>
      destruct (write_sds_attributes_ok b tr0 Hok (proj1 (proj2 Hb))
                  (proj2 (proj2 Hb))) as (d & Hd & Hattr);
      rewrite (bind_ok _ _ _ _ _ (on_error_ok _ _ _ _ _ _ Hd))
  end.
  unfold emit. repeat rewrite <- app_assoc. eexists. split; [reflexivity|].
  repeat rewrite sds_names_app. rewrite (sds_names_attributes d Hattr).
  reflexivity.
Qed.

(** With every call succeeding, the inner loop writes the writable bands
    of the name it asks for. *)
Lemma scan_bands_ok (bnd : Z) (new_name old_name : string)
  (bands : list Espa_band_meta_t) :
  all_calls_succeed hdf_ok ->
  (forall b, In b bands -> named new_name b = true -> sds_writable b) ->
  forall bnd_found tr,
  exists d,
    scan_bands hdf_ok bnd new_name old_name bands bnd_found tr =
      Ok (bnd_found || existsb (named new_name) bands) (tr ++ d)
    /\ sds_names d =
         map (fun _ => old_name) (filter (named new_name) bands).
Proof.
  intros Hok. induction bands as [|b bands IH]; intros Hw bnd_found tr.
  - exists []. cbn. now rewrite app_nil_r, orb_false_r.
  - cbn [scan_bands existsb filter].
    assert (Hw' : forall b', In b' bands -> named new_name b' = true ->
                             sds_writable b') by (intros; apply Hw; cbn; auto).
    pose proof (Hw b (or_introl eq_refl)) as Hwb.
    change (String.eqb (name b) new_name) with (named new_name b).
    destruct (named new_name b); cbn [negb orb map].
    + destruct (write_sds_ok bnd old_name b tr Hok (Hwb eq_refl))
        as (d1 & Hd1 & Hn1).
      rewrite (bind_ok _ _ _ _ _ Hd1).
      destruct (IH Hw' true (tr ++ d1)) as (d2 & Hd2 & Hn2).
      exists (d1 ++ d2). rewrite Hd2, orb_true_r, app_assoc.
      split; [reflexivity|]. now rewrite sds_names_app, Hn1, Hn2.
    + destruct (IH Hw' bnd_found tr) as (d & Hd & Hn). now exists d.
Qed.

(** With every call succeeding, the loop writes the SDSs in the order of
    the table when every row but, possibly, the one of index
    [NOLD_SR - 1] has a band and the bands of the table are writable. *)
Lemma sds_loop_ok (mapping : list (string * string))
  (bands : list Espa_band_meta_t) :
  all_calls_succeed hdf_ok ->
  (forall b row, In b bands -> In row mapping -> named (fst row) b = true ->
                 sds_writable b) ->
  forall bnd tr,
    (forall i row, nth_error mapping i = Some row ->
                   bnd + Z.of_nat i <> NOLD_SR - 1 ->
                   existsb (named (fst row)) bands = true) ->
    exists d,
      sds_loop hdf_ok bnd mapping bands tr = Ok tt (tr ++ d)
      /\ sds_names d = written_order mapping bands.
Proof.
  intros Hok. induction mapping as [|[new_name old_name] mapping IH];
    intros Hw bnd tr Hfound.
  - exists []. cbn. now rewrite app_nil_r.
  - cbn [sds_loop].
    destruct (scan_bands_ok bnd new_name old_name bands Hok
                (fun b Hb => Hw b (new_name, old_name) Hb (or_introl eq_refl))
                false tr) as (d1 & Hd1 & Hn1).
    rewrite (bind_ok _ _ _ _ _ Hd1). cbn [orb].
    assert (Hgo : negb (existsb (named new_name) bands)
                  && negb (bnd =? NOLD_SR - 1) = false).
    { destruct (Z.eqb_spec bnd (NOLD_SR - 1)) as [Hlast|Hlast];
        [now rewrite andb_false_r|].
      pose proof (Hfound 0%nat (new_name, old_name) eq_refl) as Hhere.
      cbn [fst] in Hhere.
      rewrite Hhere; [reflexivity | now rewrite Z.add_0_r]. }
    rewrite Hgo.
    destruct (IH (fun b row Hb Hrow => Hw b row Hb (or_intror Hrow))
                (bnd + 1) (tr ++ d1)) as (d2 & Hd2 & Hn2).
    { intros i row Hi Hlast. apply (Hfound (S i) row Hi). lia. }
    exists (d1 ++ d2). rewrite Hd2, app_assoc. split; [reflexivity|].
    rewrite sds_names_app, Hn1, Hn2. reflexivity.
Qed.

(** The rows of [hdfname_mapping] but the last have the required names. *)
Lemma hdfname_mapping_required (i : nat) (row : string * string) :
  nth_error hdfname_mapping i = Some row ->
  0 + Z.of_nat i <> NOLD_SR - 1 ->
  In (fst row) required_names.
Proof.
  intros Hi Hlast.
  do 16 (destruct i as [|i];
         [injection Hi as <-; vm_compute; tauto |]).
  destruct i as [|i]; [now contradiction Hlast |].
  now destruct i.
Qed.

(** With every call succeeding, the required bands present and the bands
    of the table writable, the loop ends normally and has created the SDSs
    in the order of the table. *)
Lemma sds_loop_table_ok (bands : list Espa_band_meta_t) (tr : trace) :
  all_calls_succeed hdf_ok ->
  required_present bands ->
  table_bands_writable bands ->
  exists d,
    sds_loop hdf_ok 0 hdfname_mapping bands tr = Ok tt (tr ++ d)
    /\ sds_names d = written_order hdfname_mapping bands.
Proof.
  intros Hok Hreq Hw. apply sds_loop_ok; [exact Hok | |].
  - intros b row Hb Hrow Hnamed. apply (Hw b Hb).
    unfold named in Hnamed. apply String.eqb_eq in Hnamed. rewrite Hnamed.
    now apply in_map.
  - intros i row Hi Hlast. apply Hreq.
    now apply (hdfname_mapping_required i).
Qed.

Lemma written_order_app (pre post : list (string * string))
  (bands : list Espa_band_meta_t) :
  written_order (pre ++ post) bands =
  written_order pre bands ++ written_order post bands.
Proof. apply flat_map_app. Qed.

Lemma filter_named_none (new_name : string) (bands : list Espa_band_meta_t) :
  existsb (named new_name) bands = false ->
  filter (named new_name) bands = [].
Proof.
  induction bands as [|b bands IH]; [reflexivity|].
  cbn [existsb filter]. intros H. apply orb_false_iff in H as [-> H]. auto.
Qed.

(** C3, as amended. Take a row of the table whose new name no band has.
    When the row is not the last one, the loop over the SDSs never ends
    normally; when the rows before it were written without an error, the
    loop returns [ERROR] with the message that names this row, the first
    one without a band, and when the row is the last one (fmask) the loop
    ends normally and has written nothing for it. With every call
    succeeding, the required bands present and the bands of the table
    writable, a band list without fmask is written: the SDSs are those of
    the rows before the last. *)
Theorem first_missing_band_is_reported :
  forall (bands : list Espa_band_meta_t) (pre post : list (string * string))
    (new_name old_name : string),
    hdfname_mapping = pre ++ (new_name, old_name) :: post ->
    existsb (named new_name) bands = false ->
    (forall tr a tr',
        post <> [] ->
        sds_loop hdf_ok 0 hdfname_mapping bands tr <> Ok a tr')
    /\ (forall tr tr1,
          sds_loop hdf_ok 0 pre bands tr = Ok tt tr1 ->
          sds_loop hdf_ok 0 hdfname_mapping bands tr =
            match post with
            | [] => Ok tt tr1
            | _ :: _ =>
                Error (tr1 ++ [error_handler "create_hdf_metadata"
                                 (band_not_found new_name)])
            end)
    /\ (post = [] ->
        all_calls_succeed hdf_ok ->
        required_present bands ->
        table_bands_writable bands ->
        forall tr, exists d,
          sds_loop hdf_ok 0 hdfname_mapping bands tr = Ok tt (tr ++ d)
          /\ sds_names d = written_order pre bands).
Proof.
  intros bands pre post new_name old_name Hmap Hnone.
  assert (Hlen : (List.length pre + S (List.length post) = 17)%nat).
  { change 17%nat with (List.length hdfname_mapping).
    rewrite Hmap, length_app. reflexivity. }
  split; [| split].
  - intros tr a tr' Hpost H. destruct a.
    pose proof (sds_loop_Ok_found _ _ _ _ _ H (List.length pre)
                  (new_name, old_name)) as Hfound.
    rewrite Hmap, nth_error_app2, Nat.sub_diag in Hfound by lia.
    cbn [nth_error fst] in Hfound. rewrite Hnone in Hfound.
    assert (Hfalse : false = true); [| discriminate Hfalse].
    apply Hfound; [reflexivity|].
    destruct post; [now contradiction Hpost|].
    cbn [List.length] in Hlen. unfold NOLD_SR. lia.
  - intros tr tr1 Hpre. rewrite Hmap, sds_loop_app.
    rewrite (bind_ok _ _ _ _ _ Hpre). cbn [sds_loop].
    rewrite (bind_ok _ _ _ _ _ (scan_bands_none _ _ _ _ _ _ Hnone)).
    cbn [negb andb]. destruct post as [|row post].
    + replace (0 + Z.of_nat (List.length pre) =? NOLD_SR - 1) with true;
        [reflexivity|].
      symmetry. apply Z.eqb_eq. cbn [List.length] in Hlen. unfold NOLD_SR. lia.
    + replace (0 + Z.of_nat (List.length pre) =? NOLD_SR - 1) with false;
        [reflexivity|].
      symmetry. apply Z.eqb_neq. cbn [List.length] in Hlen. unfold NOLD_SR.
      lia.
  - intros -> Hok Hreq Hw tr.
    destruct (sds_loop_table_ok bands tr Hok Hreq Hw) as (d & Hd & Hn).
    exists d. split; [exact Hd|]. rewrite Hn, Hmap, written_order_app.
    unfold written_order at 2. cbn [flat_map fst].
    rewrite (filter_named_none _ _ Hnone). cbn. now rewrite app_nil_r.
Qed.





















End Sds_loop_facts.

(** ** The whole of [create_hdf_metadata] and the ENVI header *)

Section Create_facts.

Context {defs : Espa_defines}.
Variable hdf_ok : trace -> event -> bool.

Lemma required_names_NoDup : NoDup required_names.
Proof.
  unfold required_names, hdfname_mapping. cbn [map removelast fst].
  repeat (apply NoDup_cons;
          [ cbn [In]; intros H;
            repeat (destruct H as [H|H]; [discriminate H|]); exact H |]).
  apply NoDup_nil.
Qed.

(** A band list with the required names has sixteen bands or more. *)
Lemma required_present_length (bands : list Espa_band_meta_t) :
  required_present bands -> (16 <= List.length bands)%nat.
Proof.
  intros Hreq. change 16%nat with (List.length required_names).
  rewrite <- (length_map name bands).
  apply NoDup_incl_length; [apply required_names_NoDup|].
  intros new_name Hin. apply Hreq in Hin.
  apply existsb_exists in Hin as (b & Hb & Hnamed).
  unfold named in Hnamed. apply String.eqb_eq in Hnamed. subst new_name.
  now apply in_map.
Qed.

(** With eleven bands or more, no band is read outside of the array:
    [write_global_attributes] returns [SUCCESS] when every call does. *)
Lemma write_global_attributes_ok (xml_metadata : Espa_internal_meta_t)
  (tr : trace) :
  all_calls_succeed hdf_ok ->
  (11 <= List.length (band xml_metadata))%nat ->
  exists tr', write_global_attributes hdf_ok xml_metadata tr = Ok tt tr'.
Proof.
  intros Hok Hlen. destruct xml_metadata as [g bands]. cbn [band] in Hlen.
  do 11 (destruct bands as [|? bands]; [cbn in Hlen; lia|]).
  assert (Hgb : exists gb,
             gains_and_biases
               {| global := g;
                  band := e :: e0 :: e1 :: e2 :: e3 :: e4 :: e5 :: e6 :: e7
                            :: e8 :: e9 :: bands |} = Some gb).
  { unfold gains_and_biases. cbn [global band nth_error].
    destruct (is_TM (instrument g)), (is_ETM (instrument g)),
      (is_OLI_TIRS (instrument g)), (gain_bias_exist e);
      eexists; reflexivity. }
  destruct Hgb as (gb & Hgb).
  unfold write_global_attributes, pan_band. rewrite Hgb.
  cbn [global band nth_error]. run_calls Hok.
  repeat match goal with
         | |- context [if ?c then _ else _] => destruct c; run_calls Hok
         end;
    eexists; reflexivity.
Qed.

Lemma create_hdf_metadata_ok (hdf_file : string)
  (xml_metadata : Espa_internal_meta_t) (tr : trace) :
  all_calls_succeed hdf_ok ->
  required_present (band xml_metadata) ->
  table_bands_writable (band xml_metadata) ->
  exists tr', create_hdf_metadata hdf_ok hdf_file xml_metadata tr = Ok tt tr'.
Proof.
  intros Hok Hreq Hw. unfold create_hdf_metadata. run_calls Hok.
  destruct (sds_loop_table_ok hdf_ok (band xml_metadata)
              (tr ++ [SDstart hdf_file]) Hok Hreq Hw) as (d & Hd & _).
  rewrite (bind_ok _ _ _ _ _ Hd).
  destruct (write_global_attributes_ok xml_metadata
              ((tr ++ [SDstart hdf_file]) ++ d) Hok) as (tr1 & H1).
  { pose proof (required_present_length _ Hreq). lia. }
  rewrite (bind_ok _ _ _ _ _ (on_error_ok _ _ _ _ _ _ H1)).
  run_calls Hok. eexists. reflexivity.
Qed.

(** When [create_hdf_metadata] returns [SUCCESS], the loop over the SDSs
    has ended normally. *)
Lemma create_hdf_metadata_Ok_inv (hdf_file : string)
  (xml_metadata : Espa_internal_meta_t) (tr tr' : trace) :
  create_hdf_metadata hdf_ok hdf_file xml_metadata tr = Ok tt tr' ->
  exists tr0 tr1,
    sds_loop hdf_ok 0 hdfname_mapping (band xml_metadata) tr0 = Ok tt tr1.
Proof.
  unfold create_hdf_metadata. intros H.
  apply bind_Ok_inv in H as ([] & tr0 & _ & H).
  apply bind_Ok_inv in H as ([] & tr1 & H & _). eauto.
Qed.

Lemma sds_loop_Ok_required (bands : list Espa_band_meta_t) (tr tr' : trace) :
  sds_loop hdf_ok 0 hdfname_mapping bands tr = Ok tt tr' ->
  required_present bands.
Proof.
  intros H new_name Hin.
  apply In_nth_error in Hin as (i & Hi).
  assert (Hlt : (i < 16)%nat).
  { change 16%nat with (List.length required_names).
    apply nth_error_Some. now rewrite Hi. }
  apply (sds_loop_Ok_found hdf_ok _ _ _ _ _ H i
           (new_name, nth i (map snd hdfname_mapping) "")).
  - do 16 (destruct i as [|i];
           [vm_compute in Hi; injection Hi as <-; reflexivity|]).
    lia.
  - unfold NOLD_SR. lia.
Qed.

(** The search for the band of the ENVI header: without a band named as
    the first row of the table, the index stays what it was; with one, it
    is the index of a band of that name. *)
Lemma sr_band1_index_spec (bands : list Espa_band_meta_t) :
  forall i indx,
    (existsb (named "sr_band1") bands = false
     /\ sr_band1_index bands i indx = indx)
    \/ (i <= sr_band1_index bands i indx < i + Z.of_nat (List.length bands)
        /\ exists b,
            nth_error bands (Z.to_nat (sr_band1_index bands i indx - i))
              = Some b
            /\ name b = "sr_band1").
Proof.
  induction bands as [|b bands IH]; intros i indx; [left; now split|].
  cbn [sr_band1_index existsb List.length].
  change (fst (hd ("", "") hdfname_mapping)) with "sr_band1".
  change (String.eqb (name b) "sr_band1") with (named "sr_band1" b).
  destruct (IH (i + 1)
              (if named "sr_band1" b then i else indx)) as [[Hnone ->]|Hin].
  - destruct (named "sr_band1" b) eqn:Hb; [right | left; now split].
    split; [lia|]. exists b. rewrite Z.sub_diag. split; [reflexivity|].
    now apply String.eqb_eq.
  - right. destruct Hin as (Hrange & b' & Hnth & Hname).
    split; [lia|]. exists b'. split; [|exact Hname].
    replace (Z.to_nat (sr_band1_index bands (i + 1)
                         (if named "sr_band1" b then i else indx) - i))
      with (S (Z.to_nat (sr_band1_index bands (i + 1)
                           (if named "sr_band1" b then i else indx)
                         - (i + 1)))) by lia.
    exact Hnth.
Qed.

(** C9. When [create_hdf_metadata] has returned [SUCCESS], a band is named
    "sr_band1": the search of [convert_hdf_to_old_hdf] ends on the index of
    such a band, not on -99, and the band read for the ENVI header is inside
    of the band array. *)
Theorem envi_header_band_is_found :
  forall (hdf_file : string) (xml_metadata : Espa_internal_meta_t)
    (tr tr' : trace),
    create_hdf_metadata hdf_ok hdf_file xml_metadata tr = Ok tt tr' ->
    let indx := sr_band1_index (band xml_metadata) 0 (-99) in
    existsb (named "sr_band1") (band xml_metadata) = true
    /\ indx <> -99
    /\ 0 <= indx < nbands xml_metadata
    /\ (exists bmeta,
          nth_Z (band xml_metadata) indx = Some bmeta
          /\ name bmeta = "sr_band1")
    /\ (forall parse_metadata espa_xml_file,
          parse_metadata espa_xml_file = Some xml_metadata ->
          convert_hdf_to_old_hdf hdf_ok parse_metadata espa_xml_file hdf_file
            tr <> Undef).
Proof.
  intros hdf_file xml_metadata tr tr' H indx.
  pose proof H as Hcreate.
  apply create_hdf_metadata_Ok_inv in H as (tr0 & tr1 & H).
  apply sds_loop_Ok_required in H.
  assert (Hex : existsb (named "sr_band1") (band xml_metadata) = true).
  { apply H. vm_compute. tauto. }
  split; [exact Hex|].
  destruct (sr_band1_index_spec (band xml_metadata) 0 (-99))
    as [[Hnone _]|(Hrange & b & Hnth & Hname)];
    [rewrite Hnone in Hex; discriminate Hex|].
  fold indx in Hrange, Hnth. unfold nbands.
  assert (Hread : nth_Z (band xml_metadata) indx = Some b).
  { unfold nth_Z. destruct (Z.ltb_spec indx 0); [lia|].
    now rewrite Z.sub_0_r in Hnth. }
  split; [lia | split; [lia | split]].
  - exists b. now split.
  - intros parse_metadata espa_xml_file Hparse.
    unfold convert_hdf_to_old_hdf. rewrite Hparse.
    rewrite (bind_ok _ _ _ _ _ (on_error_ok _ _ _ _ _ _ Hcreate)).
    fold indx. rewrite Hread, bind_read_some.
    unfold bind, attempt, snprintf, fail_with.
    repeat match goal with
           | |- context [if ?c then _ else _] => destruct c
           end; discriminate.
Qed.

(** The production date among the global attributes is that of the first
    band, whatever its name. *)
Lemma write_global_attributes_production_date
  (xml_metadata : Espa_internal_meta_t) (b0 : Espa_band_meta_t)
  (rest : list Espa_band_meta_t) :
  band xml_metadata = b0 :: rest ->
  emits_event (write_global_attributes hdf_ok xml_metadata)
    (put_attr_string "ProductionDate" (strlen (production_date b0))
       (production_date b0)).
Proof.
  intros Hb. unfold write_global_attributes.
  do 23 (apply emits_event_bind_r; [repeat emits_step | intros ?]).
  rewrite Hb. cbn [nth_error]. intros tr u tr' H.
  rewrite bind_read_some in H.
  now apply (emits_event_attempt hdf_ok _ _ _ _ _ _ H).
Qed.

(** C10, as amended. A band whose name is the new name of no row of the
    table is skipped by the loop over the SDSs: with the band or without
    it, the run of the loop is the same, to the last event (no SDS is
    created for the band, none of its SDS attributes is written, its data
    type is not looked at). With every call succeeding, the band does not
    make [create_hdf_metadata] fail. It is a band of the array all the same:
    when it is the first band, its production date is the one written among
    the global attributes, and [convert_hdf_to_old_hdf] counts it in
    [nbands] and fails above [MAX_ENVI_BANDS]. *)
Theorem unmatched_band_is_skipped :
  forall (b : Espa_band_meta_t) (l1 l2 : list Espa_band_meta_t),
    ~ In (name b) (map fst hdfname_mapping) ->
    (forall tr,
        sds_loop hdf_ok 0 hdfname_mapping (l1 ++ b :: l2) tr =
        sds_loop hdf_ok 0 hdfname_mapping (l1 ++ l2) tr)
    /\ (all_calls_succeed hdf_ok ->
        forall hdf_file g tr tr',
          create_hdf_metadata hdf_ok hdf_file
            {| global := g; band := l1 ++ l2 |} tr = Ok tt tr' ->
          exists tr'',
            create_hdf_metadata hdf_ok hdf_file
              {| global := g; band := l1 ++ b :: l2 |} tr = Ok tt tr'')
    /\ (forall g,
          emits_event
            (write_global_attributes hdf_ok {| global := g; band := b :: l2 |})
            (put_attr_string "ProductionDate" (strlen (production_date b))
               (production_date b)))
    /\ (forall parse_metadata espa_xml_file hdf_file g tr tr',
          parse_metadata espa_xml_file =
            Some {| global := g; band := l1 ++ b :: l2 |} ->
          MAX_ENVI_BANDS < Z.of_nat (List.length (l1 ++ b :: l2)) ->
          convert_hdf_to_old_hdf hdf_ok parse_metadata espa_xml_file hdf_file
            tr <> Ok tt tr').
Proof.
  intros b l1 l2 Hname.
  assert (Hloop : forall tr,
             sds_loop hdf_ok 0 hdfname_mapping (l1 ++ b :: l2) tr =
             sds_loop hdf_ok 0 hdfname_mapping (l1 ++ l2) tr).
  { intros tr. apply sds_loop_filter. intros row Hrow.
    rewrite !filter_app. cbn [filter].
    destruct (named (fst row) b) eqn:Hb; [|reflexivity].
    exfalso. apply Hname. unfold named in Hb. apply String.eqb_eq in Hb.
    rewrite Hb. now apply in_map. }
  split; [exact Hloop | split; [| split]].
  - intros Hok hdf_file g tr tr' H.
    unfold create_hdf_metadata in H |- *. cbn [band] in H |- *.
    rewrite (bind_attempt_ok _ _ _ _ _ _ Hok) in H.
    rewrite (bind_attempt_ok _ _ _ _ _ _ Hok).
    apply bind_Ok_inv in H as ([] & tr1 & Hsds & _).
    rewrite (bind_ok _ _ _ _ _ (eq_trans (Hloop _) Hsds)).
    destruct (write_global_attributes_ok
                {| global := g; band := l1 ++ b :: l2 |} tr1 Hok)
      as (tr2 & H2).
    { pose proof (required_present_length _
                    (sds_loop_Ok_required _ _ _ Hsds)) as Hlen.
      cbn [band]. rewrite length_app in Hlen |- *. cbn [List.length]. lia. }
    rewrite (bind_ok _ _ _ _ _ (on_error_ok _ _ _ _ _ _ H2)).
    run_calls Hok. eexists. reflexivity.
  - intros g.
    now apply write_global_attributes_production_date with (rest := l2).
  - intros parse_metadata espa_xml_file hdf_file g tr tr' Hparse Hmax.
    unfold convert_hdf_to_old_hdf. rewrite Hparse. unfold nbands.
    cbn [band]. apply Z.ltb_lt in Hmax. rewrite Hmax.
    unfold bind, fail_with.
    repeat match goal with
           | |- context [match ?m with _ => _ end] => destruct m
           end; discriminate.
Qed.

End Create_facts.

(** ** The names of the GeoTIFF files *)

Section Gtif_facts.

Context {defs : Espa_defines}.

Lemma substring_whole (s : string) (n : nat) :
  (String.length s <= n)%nat -> String.substring 0 n s = s.
Proof.
  revert n. induction s as [|c s IH]; intros n Hn.
  - now destruct n.
  - destruct n as [|n]; cbn [String.length] in Hn; [lia|].
    cbn [String.substring]. f_equal. apply IH. lia.
Qed.

(** A text that fits is stored whole by [snprintf]. *)
Lemma snprintf_fits (size : Z) (text : string) :
  strlen text < size -> snprintf size text = (text, strlen text).
Proof.
  intros H. unfold snprintf. f_equal. apply substring_whole.
  unfold strlen in H. lia.
Qed.

Lemma replace_first_blank_none (s : string) :
  replace_first_blank s = None -> underscores s = s /\ count_blanks s = O.
Proof.
  induction s as [|c s IH]; [now split|].
  cbn [replace_first_blank underscores count_blanks].
  destruct (Ascii.eqb c " "); [discriminate|].
  destruct (replace_first_blank s); [discriminate|].
  intros _. destruct (IH eq_refl) as [-> ->]. now split.
Qed.

Lemma replace_first_blank_some (s s' : string) :
  replace_first_blank s = Some s' ->
  underscores s' = underscores s /\ S (count_blanks s') = count_blanks s.
Proof.
  revert s'. induction s as [|c s IH]; intros s'; [discriminate|].
  cbn [replace_first_blank underscores count_blanks].
  destruct (Ascii.eqb c " ") eqn:Hc.
  - intros [= <-]. cbn [underscores count_blanks]. now split.
  - destruct (replace_first_blank s) as [s0|]; [|discriminate].
    intros [= <-]. destruct (IH s0 eq_refl) as [IH1 IH2].
    cbn [underscores count_blanks]. rewrite Hc, IH1. split; [reflexivity|].
    cbn. now rewrite IH2.
Qed.

(** As many stores as the text has blanks are enough for the loop, which
    then has replaced every blank. *)
Lemma blank_loop_underscores (fuel : nat) :
  forall s, (count_blanks s <= fuel)%nat ->
            blank_loop fuel s = Some (underscores s).
Proof.
  induction fuel as [|fuel IH]; intros s Hs.
  - destruct (replace_first_blank s) as [s'|] eqn:Hr.
    + apply replace_first_blank_some in Hr as [_ Hr]. lia.
    + cbn [blank_loop]. rewrite Hr.
      now destruct (replace_first_blank_none s Hr) as [-> _].
  - cbn [blank_loop]. destruct (replace_first_blank s) as [s'|] eqn:Hr.
    + destruct (replace_first_blank_some s s' Hr) as [<- Hc].
      apply IH. lia.
    + now destruct (replace_first_blank_none s Hr) as [-> _].
Qed.

Lemma count_blanks_length (s : string) :
  (count_blanks s <= String.length s)%nat.
Proof.
  induction s as [|c s IH]; [reflexivity|].
  cbn [count_blanks String.length]. destruct (Ascii.eqb c " "); lia.
Qed.

Lemma count_blanks_underscores (s : string) :
  count_blanks (underscores s) = O.
Proof.
  induction s as [|c s IH]; [reflexivity|].
  cbn [underscores count_blanks]. rewrite IH.
  now destruct (Ascii.eqb c " ") eqn:Hc; [|rewrite Hc].
Qed.

Lemma underscores_idempotent (s : string) :
  underscores (underscores s) = underscores s.
Proof.
  induction s as [|c s IH]; [reflexivity|].
  cbn [underscores]. rewrite IH.
  now destruct (Ascii.eqb c " ") eqn:Hc; [|rewrite Hc].
Qed.

(** C5. For every base name and band name: whenever
    [convert_espa_to_gtif] has the name of the GeoTIFF file of the band,
    it is the base name, an underscore, the band name and ".tif" with every
    blank replaced by an underscore; it has this name when the whole fits in
    [STR_SIZE] characters with its end, and returns [ERROR] (overflow)
    when not. The name has no blank left, replacing again changes nothing,
    and the loop of the source stops on it at once. *)
Theorem gtif_band_name_replaces_blanks :
  forall (gtif_file band_name : string),
    let composed := gtif_file ^^ "_" ^^ band_name ^^ ".tif" in
    (forall tr gtif_band tr',
        gtif_band_name gtif_file band_name tr = Ok gtif_band tr' ->
        gtif_band = underscores composed /\ tr' = tr)
    /\ (forall tr,
          strlen composed < STR_SIZE ->
          gtif_band_name gtif_file band_name tr = Ok (underscores composed) tr)
    /\ (forall tr,
          STR_SIZE <= strlen composed ->
          gtif_band_name gtif_file band_name tr =
            Error (tr ++ [error_handler "convert_espa_to_gtif"
                            "Overflow of gtif_file string"]))
    /\ count_blanks (underscores composed) = O
    /\ underscores (underscores composed) = underscores composed
    /\ (forall fuel,
          blank_loop fuel (underscores composed) = Some (underscores composed)).
Proof.
  intros gtif_file band_name composed.
  assert (Hfit : forall tr,
             strlen composed < STR_SIZE ->
             gtif_band_name gtif_file band_name tr
             = Ok (underscores composed) tr).
  { intros tr H. unfold gtif_band_name. fold composed.
    rewrite (snprintf_fits _ _ H).
    assert (0 <= strlen composed) by (unfold strlen; lia).
    replace (strlen composed <? 0) with false
      by (symmetry; apply Z.ltb_ge; lia).
    replace (STR_SIZE <=? strlen composed) with false
      by (symmetry; apply Z.leb_gt; lia).
    cbn [orb]. rewrite blank_loop_underscores; [reflexivity|].
    apply count_blanks_length. }
  assert (Hover : forall tr,
             STR_SIZE <= strlen composed ->
             gtif_band_name gtif_file band_name tr =
             Error (tr ++ [error_handler "convert_espa_to_gtif"
                             "Overflow of gtif_file string"])).
  { intros tr H. unfold gtif_band_name, snprintf. fold composed.
    replace (STR_SIZE <=? strlen composed) with true
      by (symmetry; apply Z.leb_le; lia).
    now rewrite orb_true_r. }
  repeat split.
  - destruct (Z.lt_ge_cases (strlen composed) STR_SIZE) as [Hlt|Hge].
    + rewrite (Hfit tr Hlt) in H. now injection H.
    + rewrite (Hover tr Hge) in H. discriminate H.
  - destruct (Z.lt_ge_cases (strlen composed) STR_SIZE) as [Hlt|Hge].
    + rewrite (Hfit tr Hlt) in H. now injection H.
    + rewrite (Hover tr Hge) in H. discriminate H.
  - exact Hfit.
  - exact Hover.
  - apply count_blanks_underscores.
  - apply underscores_idempotent.
  - intros fuel. rewrite blank_loop_underscores.
    + now rewrite underscores_idempotent.
    + rewrite count_blanks_underscores. lia.
Qed.

End Gtif_facts.

(** C5 on the base name "scene A" and the band name "band 1". *)
Lemma gtif_band_name_replaces_blanks_witness :
  gtif_band_name (defs := sample_defines) "scene A" "band 1" []
  = Ok "scene_A_band_1.tif" [].
Proof.
  exact (proj1 (proj2 (gtif_band_name_replaces_blanks (defs := sample_defines)
                         "scene A" "band 1")) [] eq_refl).
Defined.

(** ** The descriptions of the bits and of the classes *)

Section Description_facts.

Context {defs : Espa_defines}.
Variable hdf_ok : trace -> event -> bool.

























End Description_facts.

(** ** The properties on the example data *)

Lemma sample_band_writable (band_name : string) (g b : float) :
  sds_writable (defs := sample_defines) (sample_band band_name g b).
Proof.
  split; [intros code H; discriminate H|].
  split; intros H; discriminate H.
Qed.

Lemma sr_bands_writable (names : list string) :
  table_bands_writable (defs := sample_defines) (sr_bands names).
Proof.
  intros b Hb _. apply in_map_iff in Hb as (band_name & <- & _).
  apply sample_band_writable.
Qed.


Lemma band1_not_in_table : ~ In (name (l1_band 1)) (map fst hdfname_mapping).
Proof.
  intros H. vm_compute in H.
  repeat (destruct H as [H|H]; [discriminate H|]). exact H.
Qed.

Lemma sr_bands_required_names_present :
  required_present (sr_bands required_names).
Proof.
  intros new_name Hin. vm_compute in Hin.
  repeat (destruct Hin as [<-|Hin]; [reflexivity|]). contradiction Hin.
Qed.

(** C3, as amended, on the band list of [sr_band1] alone: the rows before
    [sr_band2] are written, and the message names [sr_band2]; and on the
    sixteen required bands without fmask: the sixteen SDSs are written. *)
Lemma first_missing_band_is_reported_witness :
  (exists tr1,
      sds_loop (defs := sample_defines) all_ok 0 hdfname_mapping
        (sr_bands ["sr_band1"]) []
      = Error (tr1 ++ [error_handler "create_hdf_metadata"
                         (band_not_found "sr_band2")]))
  /\ (exists d,
        sds_loop (defs := sample_defines) all_ok 0 hdfname_mapping
          (sr_bands required_names) [] = Ok tt ([] ++ d)
        /\ sds_names d =
             ["band1"; "band2"; "band3"; "band4"; "band5"; "band7";
              "atmos_opacity"; "fill_QA"; "DDV_QA"; "cloud_QA";
              "cloud_shadow_QA"; "snow_QA"; "land_water_QA";
              "adjacent_cloud_QA"; "band6"; "band6_fill_QA"]).
Proof.
  split.
  - eexists.
    refine (proj1 (proj2
              (first_missing_band_is_reported (defs := sample_defines) all_ok
                 (sr_bands ["sr_band1"]) [("sr_band1", "band1")]
                 (tl (tl hdfname_mapping)) "sr_band2" "band2"
                 eq_refl eq_refl)) [] _ _).
    vm_compute. reflexivity.
  - exact (proj2 (proj2
             (first_missing_band_is_reported (defs := sample_defines) all_ok
                (sr_bands required_names) (removelast hdfname_mapping) []
                "fmask" "fmask_band" eq_refl eq_refl))
             eq_refl all_ok_succeeds sr_bands_required_names_present
             (sr_bands_writable _) []).
Defined.

(** C3 as it is stated fails on the band list of [sr_band1] alone: the row
    [toa_band6] is required and has no band, and the only message of the
    run names [sr_band2]. It fails too when [sr_band1], alone again, has
    descriptions of bits that do not fit: [sr_band2] is the first row without
    a band, and the run returns [ERROR] without a message for it. *)
Lemma later_missing_band_is_not_reported :
  In "toa_band6" required_names
  /\ existsb (named "toa_band6") (sr_bands ["sr_band1"]) = false
  /\ (exists tr',
        sds_loop (defs := sample_defines) all_ok 0 hdfname_mapping
          (sr_bands ["sr_band1"]) [] = Error tr'
        /\ error_messages tr' =
             ["Band sr_band2 was not found in the XML file, but it "
              ^^ "is expected to be available for output."]
        /\ ~ In (band_not_found "toa_band6") (error_messages tr'))
  /\ existsb (named "sr_band2") [long_sr_band1] = false
  /\ (exists tr',
        sds_loop (defs := sample_defines) all_ok 0 hdfname_mapping
          [long_sr_band1] [] = Error tr'
        /\ error_messages tr' =
             ["Overflow of message string";
              "Writing band attributes for this SDS (0)."]
        /\ ~ In (band_not_found "sr_band2") (error_messages tr')).
Proof.
  split; [vm_compute; tauto|]. split; [reflexivity|].
  split; [| split; [reflexivity|]].
  - eexists. split; [vm_compute; reflexivity|].
    split; [vm_compute; reflexivity|].
    vm_compute. intros [H|H]; [discriminate H | exact H].
  - eexists. split; [vm_compute; reflexivity|].
    split; [vm_compute; reflexivity|].
    vm_compute. intros [H|[H|H]]; [discriminate H | discriminate H | exact H].
Qed.



(** C9 on the TM scene of seven level 1 bands and the bands of the table:
    [sr_band1] is the band of index 7. *)
Lemma envi_header_band_is_found_witness :
  let indx := sr_band1_index (band l1_sr_scene) 0 (-99) in
  existsb (named "sr_band1") (band l1_sr_scene) = true
  /\ indx <> -99
  /\ 0 <= indx < nbands l1_sr_scene
  /\ (exists bmeta,
        nth_Z (band l1_sr_scene) indx = Some bmeta
        /\ name bmeta = "sr_band1")
  /\ (forall parse_metadata espa_xml_file,
        parse_metadata espa_xml_file = Some l1_sr_scene ->
        convert_hdf_to_old_hdf (defs := sample_defines) all_ok parse_metadata
          espa_xml_file "scene.hdf" [] <> Undef).
Proof.
  eapply (envi_header_band_is_found (defs := sample_defines) all_ok
            "scene.hdf" l1_sr_scene []).
  vm_compute. reflexivity.
Defined.

(** C10, as amended, on the level 1 band [band1] before the bands of the
    table. *)
Lemma unmatched_band_is_skipped_witness :
  sds_loop (defs := sample_defines) all_ok 0 hdfname_mapping
    ([] ++ l1_band 1 :: sr_bands (map fst hdfname_mapping)) []
  = sds_loop (defs := sample_defines) all_ok 0 hdfname_mapping
      ([] ++ sr_bands (map fst hdfname_mapping)) [].
Proof.
  exact (proj1 (unmatched_band_is_skipped (defs := sample_defines) all_ok
                  (l1_band 1) [] (sr_bands (map fst hdfname_mapping))
                  band1_not_in_table) []).
Defined.

(** C10 as it is stated fails on the TM scene of seven level 1 bands and
    the bands of the table: no row of the table has the name of a level 1
    band, and yet the gains, the biases and the production date that
    [create_hdf_metadata] writes are those of the level 1 bands. *)
Lemma unmatched_bands_give_the_global_attributes :
  forallb (fun b => negb (existsb (String.eqb (name b))
                            (map fst hdfname_mapping)))
    (map l1_band [1; 2; 3; 4; 5; 6; 7]) = true
  /\ exists tr,
      create_hdf_metadata (defs := sample_defines) all_ok "scene.hdf"
        l1_sr_scene [] = Ok tt tr
      /\ attrs_named "ProductionDate" tr =
           [put_attr_string "ProductionDate" 20
              (production_date (l1_band 1))]
      /\ gain_bias_events tr =
           gain_bias_pair "ReflGains" "ReflBias"
             (map l1_band [1; 2; 3; 4; 5; 7])
           ++ gain_bias_pair "ThermalGains" "ThermalBias" [l1_band 6]
      /\ toa_gain (l1_band 1) = 1%float
      /\ production_date (l1_band 1) = "2013-05-20T12:00:00Z"
      /\ ~ In (production_date (l1_band 1))
             (map production_date (sr_bands (map fst hdfname_mapping))).
Proof.
  split; [reflexivity|].
  eexists. split; [vm_compute; reflexivity|].
  do 4 (split; [vm_compute; reflexivity|]).
  vm_compute. intros H.
  repeat (destruct H as [H|H]; [discriminate H|]). exact H.
Qed.

